(** * bilibili_api.user: a shallow embedding and its verified properties

    The development follows [src/bilibili_api/user.py].  Python values that
    travel through the module (response payloads, request parameters) are
    JSON-shaped, so one inductive type [JSON] carries them; the few Python
    operators the module applies to them ([v[k]], [k in v], [for x in v],
    [v[k] = w], [v == n]) are written out with the exceptions Python raises.
    Payloads are trees, as [json] parsing builds them: no object occurs
    twice in one, so an assignment into an item is a functional update of
    the payload.  JSON numbers are the ints; floats are left out.
    Network calls, the clock and [time.sleep] are effects: they are recorded
    in a trace, and the answers of the outside world come from an
    environment [Env]. *)

From Stdlib Require Import String ZArith List Bool QArith Lia.
Import ListNotations.
Open Scope string_scope.
Open Scope Z_scope.
Open Scope list_scope.

(** ** Python values *)

Set Warnings "-register-all".

Inductive JSON : Type :=
| JNull                                   (* None *)
| JBool (b : bool)
| JInt (z : Z)
| JStr (s : string)
| JArr (items : list JSON)
| JObj (fields : list (string * JSON)).   (* dict, in insertion order *)

(** A dict keeps its keys in insertion order; a key occurs once. *)
Definition Dict := list (string * JSON).

(** The credential claims an operation can ask for. *)
Inductive Claim : Type := Sessdata | BiliJct | Buvid3 | DedeUserID.

(** Exceptions.  [MissingCredentialError c] stands for the four
    [CredentialNo...Exception] classes that [__init__.py] imports from
    [.errors]; the last three are the Requester's categorized failures. *)
Inductive Exn : Type :=
| KeyError (k : string)
| TypeError
| ValueError (msg : string)
| JSONDecodeError
| MissingCredentialError (c : Claim)
| NetworkException
| ResponseException
| ResponseCodeException (code : Z).

Inductive Result (A : Type) : Type :=
| Ok (a : A)
| Err (e : Exn).
Arguments Ok {A} a.
Arguments Err {A} e.

Definition is_ok {A} (r : Result A) : bool :=
  match r with Ok _ => true | Err _ => false end.

(** Sequencing of pure steps that may raise. *)
Definition rbind {A B} (r : Result A) (f : A -> Result B) : Result B :=
  match r with
  | Ok a => f a
  | Err e => Err e
  end.

Declare Scope py_scope.
Delimit Scope py_scope with py.
Notation "x <~ r ;; k" := (rbind r (fun x => k))
  (at level 61, r at next level, right associativity) : py_scope.
Open Scope py_scope.

(** *** dict operations *)

Fixpoint dict_get (k : string) (d : Dict) : option JSON :=
  match d with
  | [] => None
  | (k', v) :: d' => if String.eqb k' k then Some v else dict_get k d'
  end.

Definition dict_has (k : string) (d : Dict) : bool :=
  match dict_get k d with Some _ => true | None => false end.

(** [d[k] = v]: an existing key keeps its place, a new key goes last. *)
Fixpoint dict_set (k : string) (v : JSON) (d : Dict) : Dict :=
  match d with
  | [] => [(k, v)]
  | (k', v') :: d' =>
      if String.eqb k' k then (k', v) :: d' else (k', v') :: dict_set k v d'
  end.

(** *** Python operators on values *)

(** [v[k]] for a str key. *)
Definition py_getitem (v : JSON) (k : string) : Result JSON :=
  match v with
  | JObj d => match dict_get k d with
              | Some x => Ok x
              | None => Err (KeyError k)
              end
  | _ => Err TypeError
  end.

(** [v[k] = x] for a str key. *)
Definition py_setitem (v : JSON) (k : string) (x : JSON) : Result JSON :=
  match v with
  | JObj d => Ok (JObj (dict_set k x d))
  | _ => Err TypeError
  end.

Definition is_substring (k s : string) : bool :=
  match String.index 0 k s with Some _ => true | None => false end.

(** [k in v] for a str [k]: key membership on a dict, element membership on
    a list, substring test on a str, TypeError on the rest. *)
Definition py_contains (k : string) (v : JSON) : Result bool :=
  match v with
  | JObj d => Ok (dict_has k d)
  | JArr l => Ok (existsb (fun x => match x with
                                    | JStr s => String.eqb s k
                                    | _ => false
                                    end) l)
  | JStr s => Ok (is_substring k s)
  | _ => Err TypeError
  end.

Fixpoint chars (s : string) : list JSON :=
  match s with
  | EmptyString => []
  | String c s' => JStr (String c EmptyString) :: chars s'
  end.

(** [for x in v]: the elements of a list, the keys of a dict, the
    characters of a str. *)
Definition py_iter (v : JSON) : Result (list JSON) :=
  match v with
  | JArr l => Ok l
  | JObj d => Ok (map (fun kv => JStr (fst kv)) d)
  | JStr s => Ok (chars s)
  | _ => Err TypeError
  end.

(** [v == n] for an int [n]; a bool is an int in Python. *)
Definition py_eq_int (v : JSON) (n : Z) : bool :=
  match v with
  | JInt z => Z.eqb z n
  | JBool b => Z.eqb (if b then 1 else 0) n
  | _ => false
  end.

(** [v == None]. *)
Definition is_None (v : JSON) : bool :=
  match v with JNull => true | _ => false end.

(** ** Credential *)

Record Credential : Type := mkCredential {
  sessdata : option string;
  bili_jct : option string;
  buvid3 : option string;
  dedeuserid : option string
}.

(** [Credential()] *)
Definition anonymous : Credential := mkCredential None None None None.

Definition claim_field (c : Claim) (cr : Credential) : option string :=
  match c with
  | Sessdata => sessdata cr
  | BiliJct => bili_jct cr
  | Buvid3 => buvid3 cr
  | DedeUserID => dedeuserid cr
  end.

(** Modelled from the spec: [utils/Credential.py] is not among the sources.
    [hasField(name) -> bool]. *)
Definition has_field (c : Claim) (cr : Credential) : bool :=
  match claim_field c cr with Some _ => true | None => false end.

(** Modelled from the spec: [utils/Credential.py] is not among the sources.
    [requireField(name)] fails with [MissingCredentialError(name)] if the
    field is absent; no network or I/O. *)
Definition raise_for_no (c : Claim) (cr : Credential) : Result unit :=
  if has_field c cr then Ok tt else Err (MissingCredentialError c).

(** ** Enumerations, with their [.value] *)

Inductive VideoOrder := VideoOrder_PUBDATE | VideoOrder_FAVORATE | VideoOrder_VIEW.
Definition VideoOrder_value (o : VideoOrder) : JSON :=
  match o with
  | VideoOrder_PUBDATE => JStr "pubdate"
  | VideoOrder_FAVORATE => JStr "stow"
  | VideoOrder_VIEW => JStr "click"
  end.

Inductive ChannelOrder := ChannelOrder_DEFAULT | ChannelOrder_CHANGE.
Definition ChannelOrder_value (o : ChannelOrder) : JSON :=
  match o with
  | ChannelOrder_DEFAULT => JStr "false"
  | ChannelOrder_CHANGE => JStr "true"
  end.

Inductive AudioOrder := AudioOrder_PUBDATE | AudioOrder_VIEW | AudioOrder_FAVORATE.
Definition AudioOrder_value (o : AudioOrder) : JSON :=
  match o with
  | AudioOrder_PUBDATE => JInt 1
  | AudioOrder_VIEW => JInt 2
  | AudioOrder_FAVORATE => JInt 3
  end.

Inductive ArticleOrder := ArticleOrder_PUBDATE | ArticleOrder_FAVORATE | ArticleOrder_VIEW.
Definition ArticleOrder_value (o : ArticleOrder) : JSON :=
  match o with
  | ArticleOrder_PUBDATE => JStr "publish_time"
  | ArticleOrder_FAVORATE => JStr "fav"
  | ArticleOrder_VIEW => JStr "view"
  end.

Inductive ArticleListOrder := ArticleListOrder_LATEST | ArticleListOrder_VIEW.
Definition ArticleListOrder_value (o : ArticleListOrder) : JSON :=
  match o with
  | ArticleListOrder_LATEST => JInt 0
  | ArticleListOrder_VIEW => JInt 1
  end.

Inductive BangumiType := BangumiType_BANGUMI | BangumiType_DRAMA.
Definition BangumiType_value (t : BangumiType) : JSON :=
  match t with
  | BangumiType_BANGUMI => JInt 1
  | BangumiType_DRAMA => JInt 2
  end.

Inductive RelationType :=
| SUBSCRIBE | UNSUBSCRIBE | SUBSCRIBE_SECRETLY | BLOCK | UNBLOCK | REMOVE_FANS.
Definition RelationType_value (r : RelationType) : JSON :=
  match r with
  | SUBSCRIBE => JInt 1
  | UNSUBSCRIBE => JInt 2
  | SUBSCRIBE_SECRETLY => JInt 3
  | BLOCK => JInt 5
  | UNBLOCK => JInt 6
  | REMOVE_FANS => JInt 7
  end.

Inductive ChannelSeriesType := SERIES | SEASON.
Definition ChannelSeriesType_value (t : ChannelSeriesType) : Z :=
  match t with
  | SERIES => 0
  | SEASON => 1
  end.

(** ** Effects *)

Inductive Method := GET | POST.

(** What [request(method, url, params=, data=, credential=)] is called with;
    an argument left out is [None]. *)
Record Request : Type := mkRequest {
  req_method : Method;
  req_url : string;
  req_params : option Dict;
  req_data : option Dict;
  req_credential : option Credential
}.

Inductive Event : Type :=
| EvRequest (r : Request)      (* one call of the Requester *)
| EvSleep (seconds : Q).       (* time.sleep *)

(** The outside world.  Answers may depend on everything that happened
    before (the trace), so a mocked Requester that answers the first call
    one way and the second another is an [Env]. *)
Record Env : Type := mkEnv {
  (* API[section][name]["url"], the catalog loaded by get_api("user") *)
  API : string -> string -> string;
  (* utils.network_httpx.request: the payload, or the exception raised *)
  requester : list Event -> Request -> Result JSON;
  (* int(time.time()) *)
  time_time : list Event -> Z;
  (* json.loads on a str; None when it raises JSONDecodeError *)
  loads : string -> option JSON;
  (* json.dumps *)
  dumps : JSON -> string;
  (* utils.utils.join(sep, ints) *)
  join : string -> list Z -> string
}.

(** The program state: the trace of effects so far, and the store holding
    the mutable field [__self_info] of every [User] instance created. *)
Record State : Type := mkState {
  trace : list Event;
  heap : list JSON
}.

Definition M (A : Type) : Type := State -> Result A * State.

Definition ret {A} (a : A) : M A := fun st => (Ok a, st).

Definition raise {A} (e : Exn) : M A := fun st => (Err e, st).

Definition bind {A B} (m : M A) (f : A -> M B) : M B :=
  fun st =>
    match m st with
    | (Ok a, st') => f a st'
    | (Err e, st') => (Err e, st')
    end.

Definition lift {A} (r : Result A) : M A := fun st => (r, st).

Notation "x <- m ;; k" := (bind m (fun x => k))
  (at level 61, m at next level, right associativity) : py_scope.
Notation "m ;;; k" := (bind m (fun _ => k))
  (at level 61, right associativity) : py_scope.
Open Scope py_scope.

Definition emit (e : Event) : M unit :=
  fun st => (Ok tt, mkState (trace st ++ [e]) (heap st)).

(** *** The store of [__self_info] fields

    A [User] holds the address of its cell; [User_init] is the only
    allocator, so the address of an instance is always inside the store. *)

Fixpoint store_set (a : nat) (v : JSON) (h : list JSON) : list JSON :=
  match h, a with
  | [], _ => []
  | _ :: h', O => v :: h'
  | x :: h', S a' => x :: store_set a' v h'
  end.

Definition new_cell : M nat :=
  fun st => (Ok (length (heap st)), mkState (trace st) (heap st ++ [JNull])).

Definition read_cell (a : nat) : M JSON :=
  fun st => (Ok (nth a (heap st) JNull), st).

Definition write_cell (a : nat) (v : JSON) : M unit :=
  fun st => (Ok tt, mkState (trace st) (store_set a v (heap st))).

(** ** The module [bilibili_api.user] *)

Section Program.

Variable env : Env.

(** Modelled from the spec: [utils/network_httpx.py] is not among the
    sources.  [Requester.send(method, url, query?, body?, auth?)] performs
    the call and returns the parsed payload or raises a categorized error;
    here the call is appended to the trace and the environment answers. *)
Definition request (m : Method) (u : string) (params data : option Dict)
    (cred : option Credential) : M JSON :=
  fun st =>
    let r := mkRequest m u params data cred in
    (requester env (trace st) r, mkState (trace st ++ [EvRequest r]) (heap st)).

(** [time.sleep(seconds)] *)
Definition time_sleep (seconds : Q) : M unit := emit (EvSleep seconds).

(** [int(time.time())] *)
Definition int_time : M Z := fun st => (Ok (time_time env (trace st)), st).

(** [json.loads(v)]: decodes a str, TypeError on any other value. *)
Definition json_loads (v : JSON) : Result JSON :=
  match v with
  | JStr s => match loads env s with
              | Some x => Ok x
              | None => Err JSONDecodeError
              end
  | _ => Err TypeError
  end.

Definition raise_for_no_sessdata (cr : Credential) : M unit :=
  lift (raise_for_no Sessdata cr).
Definition raise_for_no_bili_jct (cr : Credential) : M unit :=
  lift (raise_for_no BiliJct cr).
Definition raise_for_no_dedeuserid (cr : Credential) : M unit :=
  lift (raise_for_no DedeUserID cr).

(** *** class User *)

Record User : Type := mkUser {
  uid : Z;
  credential : Credential;
  self_info : nat          (* where the field __self_info lives *)
}.

Definition User_init (uid : Z) (credential : option Credential) : M User :=
  let credential := match credential with
                    | None => anonymous
                    | Some c => c
                    end in
  a <- new_cell ;;
  ret (mkUser uid credential a).

Definition get_user_info (self : User) : M JSON :=
  let params := [("mid", JInt (uid self))] in
  request GET (API env "info" "info") (Some params) None (Some (credential self)).

(** module-level [get_self_info(credential)] *)
Definition get_self_info (credential : Credential) : M JSON :=
  raise_for_no_sessdata credential ;;;
  request GET (API env "info" "my_info") None None (Some credential).

Definition User__get_self_info (self : User) : M JSON :=
  cached <- read_cell (self_info self) ;;
  if negb (is_None cached) then ret cached
  else
    v <- get_self_info (credential self) ;;
    write_cell (self_info self) v ;;;
    read_cell (self_info self).

Definition get_uid (self : User) : Z := uid self.

Definition get_relation_info (self : User) : M JSON :=
  let params := [("vmid", JInt (uid self))] in
  request GET (API env "info" "relation") (Some params) None (Some (credential self)).

Definition get_up_stat (self : User) : M JSON :=
  raise_for_no_bili_jct (credential self) ;;;
  let params := [("mid", JInt (uid self))] in
  request GET (API env "info" "upstat") (Some params) None (Some (credential self)).

Definition get_live_info (self : User) : M JSON :=
  let params := [("mid", JInt (uid self))] in
  request GET (API env "info" "live") (Some params) None (Some (credential self)).

Definition User_get_videos (self : User) (tid pn ps : Z) (keyword : string)
    (order : VideoOrder) : M JSON :=
  let params := [("mid", JInt (uid self)); ("ps", JInt ps); ("tid", JInt tid);
                 ("pn", JInt pn); ("keyword", JStr keyword);
                 ("order", VideoOrder_value order)] in
  request GET (API env "info" "video") (Some params) None (Some (credential self)).

Definition get_audios (self : User) (order : AudioOrder) (pn ps : Z) : M JSON :=
  let params := [("uid", JInt (uid self)); ("ps", JInt ps); ("pn", JInt pn);
                 ("order", AudioOrder_value order)] in
  request GET (API env "info" "audio") (Some params) None (Some (credential self)).

Definition get_articles (self : User) (pn : Z) (order : ArticleOrder) (ps : Z)
    : M JSON :=
  let params := [("mid", JInt (uid self)); ("ps", JInt ps); ("pn", JInt pn);
                 ("sort", ArticleOrder_value order)] in
  request GET (API env "info" "article") (Some params) None (Some (credential self)).

Definition get_article_list (self : User) (order : ArticleListOrder) : M JSON :=
  let params := [("mid", JInt (uid self)); ("sort", ArticleListOrder_value order)] in
  request GET (API env "info" "article_lists") (Some params) None
    (Some (credential self)).

(** The body of the loop of [get_dynamics]:
    [card["card"] = json.loads(card["card"])] and the same for
    ["extend_json"]. *)
Definition unwrap_card (card : JSON) : Result JSON :=
  s <~ py_getitem card "card" ;;
  v <~ json_loads s ;;
  card1 <~ py_setitem card "card" v ;;
  s2 <~ py_getitem card1 "extend_json" ;;
  v2 <~ json_loads s2 ;;
  py_setitem card1 "extend_json" v2.

Fixpoint unwrap_cards (l : list JSON) : Result (list JSON) :=
  match l with
  | [] => Ok []
  | c :: l' =>
      c' <~ unwrap_card c ;;
      l'' <~ unwrap_cards l' ;;
      Ok (c' :: l'')
  end.

(** The post-processing of [get_dynamics] on the payload [data].  The loop
    assigns into the items of [data["cards"]] in place: when that value is a
    list, [data] holds the updated items afterwards; a dict or a str is
    iterated over its keys or characters, which are str and make the first
    assignment raise. *)
Definition unwrap_dynamics (data : JSON) : Result JSON :=
  has_cards <~ py_contains "cards" data ;;
  if has_cards then
    cards <~ py_getitem data "cards" ;;
    items <~ py_iter cards ;;
    items' <~ unwrap_cards items ;;
    match cards with
    | JArr _ => py_setitem data "cards" (JArr items')
    | _ => Ok data
    end
  else Ok data.

Definition get_dynamics (self : User) (offset : Z) (need_top : bool) : M JSON :=
  let params := [("host_uid", JInt (uid self));
                 ("offset_dynamic_id", JInt offset);
                 ("need_top", if need_top then JInt 1 else JInt 0)] in
  data <- request GET (API env "info" "dynamic") (Some params) None
            (Some (credential self)) ;;
  lift (unwrap_dynamics data).

Definition get_subscribed_bangumi (self : User) (pn : Z) (type_ : BangumiType)
    : M JSON :=
  let params := [("vmid", JInt (uid self)); ("pn", JInt pn); ("ps", JInt 15);
                 ("type", BangumiType_value type_)] in
  request GET (API env "info" "bangumi") (Some params) None (Some (credential self)).

Definition get_followings (self : User) (pn : Z) (desc : bool) : M JSON :=
  let params := [("vmid", JInt (uid self)); ("ps", JInt 20); ("pn", JInt pn);
                 ("order", if desc then JStr "desc" else JStr "asc")] in
  request GET (API env "info" "followings") (Some params) None
    (Some (credential self)).

Definition get_followers (self : User) (pn : Z) (desc : bool) : M JSON :=
  let params := [("vmid", JInt (uid self)); ("ps", JInt 20); ("pn", JInt pn);
                 ("order", if desc then JStr "desc" else JStr "asc")] in
  request GET (API env "info" "followers") (Some params) None
    (Some (credential self)).

Definition get_overview_stat (self : User) : M JSON :=
  let params := [("mid", JInt (uid self)); ("jsonp", JStr "jsonp")] in
  request GET (API env "info" "overview") (Some params) None
    (Some (credential self)).

Definition modify_relation (self : User) (relation : RelationType) : M JSON :=
  raise_for_no_sessdata (credential self) ;;;
  raise_for_no_bili_jct (credential self) ;;;
  let data := [("fid", JInt (uid self)); ("act", RelationType_value relation);
               ("re_src", JInt 11)] in
  request POST (API env "operate" "modify") None (Some data)
    (Some (credential self)).

Definition send_msg (self : User) (text : string) : M JSON :=
  raise_for_no_sessdata (credential self) ;;;
  raise_for_no_bili_jct (credential self) ;;;
  self_info <- User__get_self_info self ;;
  sender_uid <- lift (py_getitem self_info "mid") ;;
  timestamp <- int_time ;;
  let data := [("msg[sender_uid]", sender_uid);
               ("msg[receiver_id]", JInt (uid self));
               ("msg[receiver_type]", JInt 1);
               ("msg[msg_type]", JInt 1);
               ("msg[msg_status]", JInt 0);
               ("msg[content]", JStr (dumps env (JObj [("content", JStr text)])));
               ("msg[dev_id]", JStr "B9A37BF3-AA9D-4076-A4D3-366AC8C4C5DB");
               ("msg[new_face_version]", JStr "0");
               ("msg[timestamp]", JInt timestamp);
               ("from_filework", JInt 0);
               ("build", JInt 0);
               ("mobi_app", JStr "web")] in
  request POST (API env "operate" "send_msg") None (Some data)
    (Some (credential self)).

Definition get_channel_videos_series (self : User) (sid pn ps : Z) : M JSON :=
  let param := [("mid", JInt (uid self)); ("series_id", JInt sid);
                ("pn", JInt pn); ("ps", JInt ps)] in
  request GET (API env "info" "channel_video_series") (Some param) None
    (Some (credential self)).

Definition get_channel_videos_season (self : User) (sid : Z) (sort : ChannelOrder)
    (pn ps : Z) : M JSON :=
  let param := [("mid", JInt (uid self)); ("season_id", JInt sid);
                ("sort_reverse", ChannelOrder_value sort);
                ("page_num", JInt pn); ("page_size", JInt ps)] in
  request GET (API env "info" "channel_video_season") (Some param) None
    (Some (credential self)).

Definition get_channel_list (self : User) : M JSON :=
  let param := [("mid", JInt (uid self)); ("page_num", JInt 1);
                ("page_size", JInt 1)] in
  res <- request GET (API env "info" "channel_list") (Some param) None
           (Some (credential self)) ;;
  items <- lift (items_lists <~ py_getitem res "items_lists" ;;
                 page <~ py_getitem items_lists "page" ;;
                 py_getitem page "total") ;;
  time_sleep (1 # 2) ;;;
  let items := if py_eq_int items 0 then JInt 1 else items in
  let param := dict_set "page_size" items param in
  request GET (API env "info" "channel_list") (Some param) None
    (Some (credential self)).

Definition get_cheese (self : User) : M JSON :=
  let params := [("mid", JInt (uid self))] in
  request GET (API env "info" "pugv") (Some params) None None.

(** *** class ChannelSeries *)

Record ChannelSeries : Type := mkChannelSeries {
  cs_uid : Z;
  is_new : Z;                        (* type_.value *)
  id_ : Z;
  owner : User;
  cs_credential : option Credential;
  meta : JSON
}.

(** Truth value of an int. *)
Definition truthy (z : Z) : bool := negb (Z.eqb z 0).

(** The loop of [ChannelSeries.__init__] over the owner's channels; [found]
    is [self.meta] so far.  There is no [break]: the last match stays. *)
Fixpoint scan_channels (is_new id_ : Z) (channels : list JSON) (found : JSON)
    : Result JSON :=
  match channels with
  | [] => Ok found
  | channel :: rest =>
      m <~ py_getitem channel "meta" ;;
      type_id <~ py_getitem m (if truthy is_new then "season_id" else "series_id") ;;
      scan_channels is_new id_ rest (if py_eq_int type_id id_ then m else found)
  end.

Definition not_found_message : string := "未找到频道信息。".

(** [sync(coroutine)] runs the coroutine to its end, so the call of
    [get_channel_list] happens inside the constructor. *)
Definition ChannelSeries_init (uid : Z) (type_ : ChannelSeriesType) (id_ : Z)
    (credential : option Credential) (meta : JSON) : M ChannelSeries :=
  let is_new := ChannelSeriesType_value type_ in
  owner <- User_init uid credential ;;
  let look_type := if truthy is_new then "seasons" else "series" in
  if is_None meta then
    channel_list <- get_channel_list owner ;;
    found <- lift (items_lists <~ py_getitem channel_list "items_lists" ;;
                   l <~ py_getitem items_lists (look_type ++ "_list")%string ;;
                   channels <~ py_iter l ;;
                   scan_channels is_new id_ channels JNull) ;;
    if is_None found then raise (ValueError not_found_message)
    else ret (mkChannelSeries uid is_new id_ owner credential found)
  else ret (mkChannelSeries uid is_new id_ owner credential meta).

Definition get_meta (self : ChannelSeries) : JSON := meta self.

Definition ChannelSeries_get_videos (self : ChannelSeries) (sort : ChannelOrder)
    (pn ps : Z) : M JSON :=
  if truthy (is_new self)
  then get_channel_videos_season (owner self) (id_ self) sort pn ps
  else get_channel_videos_series (owner self) (id_ self) pn ps.

(** *** module-level functions *)

Definition create_subscribe_group (name : string) (credential : Credential)
    : M JSON :=
  raise_for_no_sessdata credential ;;;
  raise_for_no_bili_jct credential ;;;
  let data := [("tag", JStr name)] in
  request POST (API env "operate" "create_subscribe_group") None (Some data)
    (Some credential).

Definition delete_subscribe_group (group_id : Z) (credential : Credential)
    : M JSON :=
  raise_for_no_sessdata credential ;;;
  raise_for_no_bili_jct credential ;;;
  let data := [("tagid", JInt group_id)] in
  request POST (API env "operate" "del_subscribe_group") None (Some data)
    (Some credential).

Definition rename_subscribe_group (group_id : Z) (new_name : string)
    (credential : Credential) : M JSON :=
  raise_for_no_sessdata credential ;;;
  raise_for_no_bili_jct credential ;;;
  let data := [("tagid", JInt group_id); ("name", JStr new_name)] in
  request POST (API env "operate" "rename_subscribe_group") None (Some data)
    (Some credential).

Definition set_subscribe_group (uids group_ids : list Z) (credential : Credential)
    : M JSON :=
  raise_for_no_sessdata credential ;;;
  raise_for_no_bili_jct credential ;;;
  let data := [("fids", JStr (join env "," uids));
               ("tagids", JStr (join env "," group_ids))] in
  request POST (API env "operate" "set_user_subscribe_group") None (Some data)
    (Some credential).

Definition get_self_history (page_num per_page_item : Z)
    (credential : option Credential) : M JSON :=
  let credential := match credential with
                    | None => anonymous
                    | Some c => c
                    end in
  raise_for_no_sessdata credential ;;;
  let params := [("pn", JInt page_num); ("ps", JInt per_page_item)] in
  request GET (API env "info" "history") (Some params) None (Some credential).

Definition get_self_coins (credential : option Credential) : M JSON :=
  let credential := match credential with
                    | None => anonymous
                    | Some c => c
                    end in
  raise_for_no_sessdata credential ;;;
  raise_for_no_dedeuserid credential ;;;
  r <- request GET (API env "info" "get_coins") None None (Some credential) ;;
  lift (py_getitem r "money").

End Program.

(** ** Vocabulary of the properties *)

(** The Requester calls of a trace, in order. *)
Definition requests (tr : list Event) : list Request :=
  flat_map (fun e => match e with EvRequest r => [r] | EvSleep _ => [] end) tr.

(** The events a computation adds to the trace when run from [st]. *)
Definition issued {R} (m : State -> R * State) (st : State) : list Event :=
  skipn (length (trace st)) (trace (snd (m st))).

(** The query parameter [k] of a Requester call, the body field [k]. *)
Definition param_of (k : string) (e : Event) : option JSON :=
  match e with
  | EvRequest r => match req_params r with
                   | Some d => dict_get k d
                   | None => None
                   end
  | EvSleep _ => None
  end.

Definition data_of (k : string) (e : Event) : option JSON :=
  match e with
  | EvRequest r => match req_data r with
                   | Some d => dict_get k d
                   | None => None
                   end
  | EvSleep _ => None
  end.

(** A caller that performs operations one after the other and keeps every
    outcome, whether a payload or an exception. *)
Fixpoint run_all {A} (ops : list (M A)) (st : State) : list (Result A) * State :=
  match ops with
  | [] => ([], st)
  | op :: ops' =>
      let (r, st1) := op st in
      let (rs, st2) := run_all ops' st1 in
      (r :: rs, st2)
  end.

(** *** Credential preconditions, as the spec classifies them *)

Inductive Classification :=
| PUBLIC | SESSION_REQUIRED | SESSION_AND_WRITE_TOKEN_REQUIRED.

(** The claims of a class, in the order they are checked. *)
Definition required (c : Classification) : list Claim :=
  match c with
  | PUBLIC => []
  | SESSION_REQUIRED => [Sessdata]
  | SESSION_AND_WRITE_TOKEN_REQUIRED => [Sessdata; BiliJct]
  end.

Definition first_missing (cs : list Claim) (cr : Credential) : option Claim :=
  find (fun c => negb (has_field c cr)) cs.

Inductive Operation :=
| OpGetUserInfo (u : User)
| OpGetRelationInfo (u : User)
| OpGetSelfInfo (cr : Credential)
| OpGetSelfHistory (page_num per_page_item : Z) (cr : option Credential)
| OpGetSelfCoins (cr : option Credential)
| OpModifyRelation (u : User) (relation : RelationType)
| OpSendMsg (u : User) (text : string)
| OpCreateSubscribeGroup (name : string) (cr : Credential)
| OpDeleteSubscribeGroup (group_id : Z) (cr : Credential)
| OpRenameSubscribeGroup (group_id : Z) (new_name : string) (cr : Credential)
| OpSetSubscribeGroup (uids group_ids : list Z) (cr : Credential).

(** [get_self_coins] asks for the session claim first and is classified by
    it; its second check, of the user-id claim, has no class in the spec. *)
Definition classify (op : Operation) : Classification :=
  match op with
  | OpGetUserInfo _ | OpGetRelationInfo _ => PUBLIC
  | OpGetSelfInfo _ | OpGetSelfHistory _ _ _ | OpGetSelfCoins _ => SESSION_REQUIRED
  | OpModifyRelation _ _ | OpSendMsg _ _
  | OpCreateSubscribeGroup _ _ | OpDeleteSubscribeGroup _ _
  | OpRenameSubscribeGroup _ _ _ | OpSetSubscribeGroup _ _ _ =>
      SESSION_AND_WRITE_TOKEN_REQUIRED
  end.

(** The AuthContext the operation is invoked with. *)
Definition op_credential (op : Operation) : Credential :=
  match op with
  | OpGetUserInfo u | OpGetRelationInfo u
  | OpModifyRelation u _ | OpSendMsg u _ => credential u
  | OpGetSelfHistory _ _ None | OpGetSelfCoins None => anonymous
  | OpGetSelfHistory _ _ (Some cr) | OpGetSelfCoins (Some cr)
  | OpGetSelfInfo cr
  | OpCreateSubscribeGroup _ cr | OpDeleteSubscribeGroup _ cr
  | OpRenameSubscribeGroup _ _ cr | OpSetSubscribeGroup _ _ cr => cr
  end.

Definition run_op (env : Env) (op : Operation) : M JSON :=
  match op with
  | OpGetUserInfo u => get_user_info env u
  | OpGetRelationInfo u => get_relation_info env u
  | OpGetSelfInfo cr => get_self_info env cr
  | OpGetSelfHistory pn ps cr => get_self_history env pn ps cr
  | OpGetSelfCoins cr => get_self_coins env cr
  | OpModifyRelation u r => modify_relation env u r
  | OpSendMsg u t => send_msg env u t
  | OpCreateSubscribeGroup n cr => create_subscribe_group env n cr
  | OpDeleteSubscribeGroup g cr => delete_subscribe_group env g cr
  | OpRenameSubscribeGroup g n cr => rename_subscribe_group env g n cr
  | OpSetSubscribeGroup us gs cr => set_subscribe_group env us gs cr
  end.

(** *** The requests of the operations the properties speak about *)

Definition channel_list_request (env : Env) (u : User) (page_size : JSON)
    : Request :=
  mkRequest GET (API env "info" "channel_list")
    (Some [("mid", JInt (uid u)); ("page_num", JInt 1); ("page_size", page_size)])
    None (Some (credential u)).

Definition identity_request (env : Env) (cr : Credential) : Request :=
  mkRequest GET (API env "info" "my_info") None None (Some cr).

Definition upstat_request (env : Env) (u : User) : Request :=
  mkRequest GET (API env "info" "upstat") (Some [("mid", JInt (uid u))]) None
    (Some (credential u)).

Definition season_request (env : Env) (u : User) (sid : Z) (sort : ChannelOrder)
    (pn ps : Z) : Request :=
  mkRequest GET (API env "info" "channel_video_season")
    (Some [("mid", JInt (uid u)); ("season_id", JInt sid);
           ("sort_reverse", ChannelOrder_value sort);
           ("page_num", JInt pn); ("page_size", JInt ps)])
    None (Some (credential u)).

Definition series_request (env : Env) (u : User) (sid pn ps : Z) : Request :=
  mkRequest GET (API env "info" "channel_video_series")
    (Some [("mid", JInt (uid u)); ("series_id", JInt sid);
           ("pn", JInt pn); ("ps", JInt ps)])
    None (Some (credential u)).

Definition cheese_request (env : Env) (user_id : Z) : Request :=
  mkRequest GET (API env "info" "pugv") (Some [("mid", JInt user_id)]) None None.

(** The identity lookup is the GET of the [my_info] endpoint. *)
Definition is_identity_lookup (env : Env) (r : Request) : bool :=
  match req_method r with
  | GET => String.eqb (req_url r) (API env "info" "my_info")
  | POST => false
  end.

Definition identity_lookups (env : Env) (tr : list Event) : nat :=
  length (filter (is_identity_lookup env) (requests tr)).

(** *** Entries of the owner's collection list *)

Definition id_key (is_new : Z) : string :=
  if truthy is_new then "season_id" else "series_id".

Definition list_key (is_new : Z) : string :=
  ((if truthy is_new then "seasons" else "series") ++ "_list")%string.

(** The metadata mapping of an entry and the id it carries under [key]. *)
Definition entry_meta (key : string) (channel : JSON) : option (Dict * JSON) :=
  match channel with
  | JObj d =>
      match dict_get "meta" d with
      | Some (JObj m) =>
          match dict_get key m with
          | Some t => Some (m, t)
          | None => None
          end
      | _ => None
      end
  | _ => None
  end.

Definition well_formed_entry (key : string) (channel : JSON) : bool :=
  match entry_meta key channel with Some _ => true | None => false end.

Definition entry_matches (key : string) (id_ : Z) (channel : JSON) : bool :=
  match entry_meta key channel with
  | Some (_, t) => py_eq_int t id_
  | None => false
  end.

Definition nonempty_mapping (v : JSON) : bool :=
  match v with
  | JObj (_ :: _) => true
  | _ => false
  end.

(** The metadata of the last entry whose id equals [id_], if any. *)
Fixpoint last_match (key : string) (id_ : Z) (channels : list JSON)
    : option Dict :=
  match channels with
  | [] => None
  | channel :: rest =>
      match last_match key id_ rest with
      | Some m => Some m
      | None =>
          match entry_meta key channel with
          | Some (m, t) => if py_eq_int t id_ then Some m else None
          | None => None
          end
      end
  end.

(** The [User] that [ChannelSeries.__init__] creates as [self.owner] when
    run from [st]. *)
Definition owner_at (st : State) (user_id : Z) (cr : option Credential) : User :=
  mkUser user_id (match cr with None => anonymous | Some c => c end)
         (length (heap st)).

(** The two-step listing run by [owner] from [st] succeeds and its sub-list
    under [lkey] is the list [channels]. *)
Definition fetches (env : Env) (owner : User) (st : State) (lkey : string)
    (channels : list JSON) : Prop :=
  exists res il pg total cl il2,
    requester env (trace st) (channel_list_request env owner (JInt 1)) = Ok res
    /\ py_getitem res "items_lists" = Ok il
    /\ py_getitem il "page" = Ok pg
    /\ py_getitem pg "total" = Ok total
    /\ requester env
         (trace st ++ [EvRequest (channel_list_request env owner (JInt 1));
                       EvSleep (1 # 2)])
         (channel_list_request env owner
            (if py_eq_int total 0 then JInt 1 else total)) = Ok cl
    /\ py_getitem cl "items_lists" = Ok il2
    /\ py_getitem il2 lkey = Ok (JArr channels).

(** *** Items of a dynamics feed *)

(** The item is a mapping whose "card" and "extend_json" fields are str
    that [json.loads] decodes. *)
Definition carries_encoded (env : Env) (item : JSON) : bool :=
  match item with
  | JObj f =>
      match dict_get "card" f, dict_get "extend_json" f with
      | Some (JStr s1), Some (JStr s2) =>
          match loads env s1, loads env s2 with
          | Some _, Some _ => true
          | _, _ => false
          end
      | _, _ => false
      end
  | _ => false
  end.

(** [item'] is [item] with the field [k] parsed: same keys in the same
    order, [k] holding what parsing the original str gives. *)
Definition field_decoded (env : Env) (k : string) (item item' : JSON) : Prop :=
  exists f f' s v,
    item = JObj f /\ item' = JObj f'
    /\ dict_get k f = Some (JStr s)
    /\ loads env s = Some v
    /\ dict_get k f' = Some v.

Definition decoded (env : Env) (item item' : JSON) : Prop :=
  field_decoded env "card" item item'
  /\ field_decoded env "extend_json" item item'
  /\ exists f f',
       item = JObj f /\ item' = JObj f'
       /\ map fst f' = map fst f
       /\ forall k, k <> "card" -> k <> "extend_json" ->
                    dict_get k f' = dict_get k f.

Definition dynamics_request (env : Env) (u : User) (offset : Z) (need_top : bool)
    : Request :=
  mkRequest GET (API env "info" "dynamic")
    (Some [("host_uid", JInt (uid u)); ("offset_dynamic_id", JInt offset);
           ("need_top", if need_top then JInt 1 else JInt 0)])
    None (Some (credential u)).

(** *** A mocked outside world *)

(** A Requester that answers every call with [payload]; [json.loads] knows
    two documents. *)
Definition mock_env (payload : JSON) : Env :=
  mkEnv (fun section name => ("https://api.test/" ++ section ++ "/" ++ name)%string)
        (fun _ _ => Ok payload)
        (fun _ => 1650000000)
        (fun s => if String.eqb s "{}" then Some (JObj [])
                  else if String.eqb s "[7]" then Some (JArr [JInt 7])
                  else None)
        (fun _ => "{}")
        (fun _ _ => "").

(** A Requester whose every call fails at the transport. *)
Definition offline_env : Env :=
  mkEnv (fun section name => ("https://api.test/" ++ section ++ "/" ++ name)%string)
        (fun _ _ => Err NetworkException)
        (fun _ => 1650000000)
        (fun _ => None)
        (fun _ => "{}")
        (fun _ _ => "").

Definition season_entry (id_ : Z) (title : string) : JSON :=
  JObj [("meta", JObj [("season_id", JInt id_); ("name", JStr title)])].

Definition sample_cards : list JSON :=
  [JObj [("desc", JInt 5); ("card", JStr "{}"); ("extend_json", JStr "[7]")]].

Definition sample_channels : list JSON :=
  [season_entry 7 "first"; season_entry 9 "second"].

Definition sample_fields : Dict :=
  [("mid", JInt 42);
   ("items_lists",
     JObj [("page", JObj [("total", JInt 2)]);
           ("seasons_list", JArr sample_channels);
           ("series_list", JArr [])]);
   ("cards", JArr sample_cards)].

Definition sample_payload : JSON := JObj sample_fields.

Definition empty_listing : JSON :=
  JObj [("items_lists",
          JObj [("page", JObj [("total", JInt 0)]);
                ("seasons_list", JArr []);
                ("series_list", JArr [])])].

Definition bare_cards_payload : JSON := JObj [("cards", JArr [JObj []])].

Definition st0 : State := mkState [] [].

(** The state right after [User(...)] created its first instance. *)
Definition st1 : State := mkState [] [JNull].

Definition full_credential : Credential :=
  mkCredential (Some "s") (Some "j") None None.

Definition token_only_credential : Credential :=
  mkCredential None (Some "j") None None.

(** ** Discovery of a user's collections *)

Fixpoint mapM {A B} (f : A -> M B) (l : list A) : M (list B) :=
  match l with
  | [] => ret []
  | x :: l' => y <- f x ;; ys <- mapM f l' ;; ret (y :: ys)
  end.

(** An object of class [ChannelSeries] as [User.get_channels] builds it.
    The constructor stores the [id_] it is handed, and [get_channels] hands
    it whatever the entry holds under its id key, an int or not. *)
Record ChannelSeriesAny : Type := mkChannelSeriesAny {
  any_uid : Z;
  any_is_new : Z;
  any_id : JSON;
  any_owner : User;
  any_credential : option Credential;
  any_meta : JSON
}.

(** One round of a loop of [User.get_channels].  [item["meta"][key]] has
    just been read when the constructor runs, so [meta] is a dict,
    [meta == None] is false and the constructor keeps it without a fetch;
    what the constructor still does is create the owner. *)
Definition channel_of_item (self : User) (type_ : ChannelSeriesType)
    (key : string) (item : JSON) : M ChannelSeriesAny :=
  id_ <- lift (m <~ py_getitem item "meta" ;; py_getitem m key) ;;
  meta <- lift (py_getitem item "meta") ;;
  owner <- User_init (uid self) (Some (credential self)) ;;
  ret (mkChannelSeriesAny (uid self) (ChannelSeriesType_value type_) id_ owner
         (Some (credential self)) meta).

(** [User.get_channels]: the seasons first, then the series; the second
    sub-list is looked up once the first loop is over. *)
Definition get_channels (env : Env) (self : User) : M (list ChannelSeriesAny) :=
  channel_data <- get_channel_list env self ;;
  seasons <- lift (items_lists <~ py_getitem channel_data "items_lists" ;;
                   l <~ py_getitem items_lists "seasons_list" ;;
                   py_iter l) ;;
  channels <- mapM (channel_of_item self SEASON "season_id") seasons ;;
  series <- lift (items_lists <~ py_getitem channel_data "items_lists" ;;
                  l <~ py_getitem items_lists "series_list" ;;
                  py_iter l) ;;
  channels' <- mapM (channel_of_item self SERIES "series_id") series ;;
  ret (channels ++ channels').

(** The object as the typed record, when its id is an int. *)
Definition as_ChannelSeries (c : ChannelSeriesAny) : option ChannelSeries :=
  match any_id c with
  | JInt z => Some (mkChannelSeries (any_uid c) (any_is_new c) z (any_owner c)
                      (any_credential c) (any_meta c))
  | _ => None
  end.

(** [c] is what [get_channels], run by [u], builds from [entry]. *)
Definition built_from (u : User) (type_ : ChannelSeriesType) (entry : JSON)
    (c : ChannelSeriesAny) : Prop :=
  exists m t,
    entry_meta (id_key (ChannelSeriesType_value type_)) entry = Some (m, t)
    /\ any_meta c = JObj m
    /\ any_id c = t
    /\ any_is_new c = ChannelSeriesType_value type_
    /\ any_uid c = uid u
    /\ any_credential c = Some (credential u)
    /\ uid (any_owner c) = uid u
    /\ credential (any_owner c) = credential u.

(** A computation that adds nothing to the trace, whatever it returns. *)
Definition silent {A} (m : M A) : Prop :=
  forall st, trace (snd (m st)) = trace st.

(** What holds of every object [get_channels], run by [u], returns. *)
Definition discovered_by (u : User) (c : ChannelSeriesAny) : Prop :=
  any_uid c = uid u
  /\ uid (any_owner c) = uid u
  /\ credential (any_owner c) = credential u
  /\ any_credential c = Some (credential u)
  /\ (any_is_new c = 0 \/ any_is_new c = 1)
  /\ nonempty_mapping (any_meta c) = true
  /\ py_getitem (any_meta c) (id_key (any_is_new c)) = Ok (any_id c).

(** *** Operations that are one request and nothing else *)

(** [send_msg] looks the identity up first and [get_self_coins] returns a
    field of the answer; every other operation hands back the answer of its
    one request. *)
Definition passes_through (op : Operation) : bool :=
  match op with
  | OpSendMsg _ _ | OpGetSelfCoins _ => false
  | _ => true
  end.

Definition op_method (op : Operation) : Method :=
  match op with
  | OpGetUserInfo _ | OpGetRelationInfo _ | OpGetSelfInfo _
  | OpGetSelfHistory _ _ _ | OpGetSelfCoins _ => GET
  | _ => POST
  end.

Definition coins_request (env : Env) (cr : Credential) : Request :=
  mkRequest GET (API env "info" "get_coins") None None (Some cr).

Definition history_request (env : Env) (page_num per_page_item : Z)
    (cr : Credential) : Request :=
  mkRequest GET (API env "info" "history")
    (Some [("pn", JInt page_num); ("ps", JInt per_page_item)]) None (Some cr).

(** A Requester that answers the identity lookup with [identity] and
    everything else with [payload]. *)
Definition mock_identity_env (identity payload : JSON) : Env :=
  mkEnv (fun section name => ("https://api.test/" ++ section ++ "/" ++ name)%string)
        (fun _ r => if String.eqb (req_url r) "https://api.test/info/my_info"
                    then Ok identity else Ok payload)
        (fun tr => 1650000000 + Z.of_nat (length tr))
        (fun _ => None)
        (fun _ => "{}")
        (fun _ _ => "").

Definition dedeuserid_credential : Credential :=
  mkCredential (Some "s") None None (Some "42").

Definition series_entry (id_ : Z) (title : string) : JSON :=
  JObj [("meta", JObj [("series_id", JInt id_); ("name", JStr title)])].

Definition mixed_listing : JSON :=
  JObj [("items_lists",
          JObj [("page", JObj [("total", JInt 3)]);
                ("seasons_list", JArr [season_entry 7 "first"; season_entry 7 "again"]);
                ("series_list", JArr [series_entry 8 "old"])])].

Definition broken_listing : JSON :=
  JObj [("items_lists",
          JObj [("page", JObj [("total", JInt 2)]);
                ("seasons_list", JArr [season_entry 7 "first"; JObj [("id", JInt 9)]]);
                ("series_list", JArr [])])].

Definition mixed_channels : list ChannelSeriesAny :=
  [mkChannelSeriesAny 100 1 (JInt 7) (mkUser 100 anonymous 1) (Some anonymous)
     (JObj [("season_id", JInt 7); ("name", JStr "first")]);
   mkChannelSeriesAny 100 1 (JInt 7) (mkUser 100 anonymous 2) (Some anonymous)
     (JObj [("season_id", JInt 7); ("name", JStr "again")]);
   mkChannelSeriesAny 100 0 (JInt 8) (mkUser 100 anonymous 3) (Some anonymous)
     (JObj [("series_id", JInt 8); ("name", JStr "old")])].

Definition mixed_items_lists : Dict :=
  [("page", JObj [("total", JInt 3)]);
   ("seasons_list", JArr [season_entry 7 "first"; season_entry 7 "again"]);
   ("series_list", JArr [series_entry 8 "old"])].

Definition broken_items_lists : Dict :=
  [("page", JObj [("total", JInt 2)]);
   ("seasons_list", JArr [season_entry 7 "first"; JObj [("id", JInt 9)]]);
   ("series_list", JArr [])].

(** The state with two instances created and nothing else done. *)
Definition st2 : State := mkState [] [JNull; JNull].

(** ** Properties *)

Section Properties.

Variable env : Env.

(** *** Basic facts *)

Lemma dict_get_set_same k v d : dict_get k (dict_set k v d) = Some v.
Proof.
  induction d as [|[k' v'] d IH]; simpl.
  - now rewrite String.eqb_refl.
  - destruct (String.eqb k' k) eqn:E; simpl; now rewrite E.
Qed.

Lemma dict_get_set_other k k' v d :
  k' <> k -> dict_get k' (dict_set k v d) = dict_get k' d.
Proof.
  intros N. induction d as [|[k0 v0] d IH]; simpl.
  - destruct (String.eqb_spec k k'); [congruence | reflexivity].
  - destruct (String.eqb_spec k0 k) as [->|]; simpl.
    + destruct (String.eqb_spec k k'); [congruence | reflexivity].
    + now rewrite IH.
Qed.

Lemma dict_set_keys k v d :
  dict_has k d = true -> map fst (dict_set k v d) = map fst d.
Proof.
  unfold dict_has. induction d as [|[k0 v0] d IH]; simpl; [discriminate|].
  destruct (String.eqb k0 k); simpl; [reflexivity|].
  intros H. now rewrite IH.
Qed.

Lemma issued_app {R} (m : State -> R * State) st l :
  trace (snd (m st)) = trace st ++ l -> issued m st = l.
Proof.
  unfold issued. intros ->.
  rewrite skipn_app, skipn_all, Nat.sub_diag. reflexivity.
Qed.

Lemma request_run m u ps d c st :
  request env m u ps d c st =
  (requester env (trace st) (mkRequest m u ps d c),
   mkState (trace st ++ [EvRequest (mkRequest m u ps d c)]) (heap st)).
Proof. reflexivity. Qed.

Lemma requests_app l1 l2 : requests (l1 ++ l2) = requests l1 ++ requests l2.
Proof. unfold requests. apply flat_map_app. Qed.

(** A missing claim stops the operation where the check stands. *)
Lemma guard_fails {A} c cr (k : M A) st :
  has_field c cr = false ->
  bind (lift (raise_for_no c cr)) (fun _ => k) st = (Err (MissingCredentialError c), st).
Proof. intros H. unfold bind, lift, raise_for_no. now rewrite H. Qed.

Lemma guard_passes {A} c cr (k : M A) st :
  has_field c cr = true ->
  bind (lift (raise_for_no c cr)) (fun _ => k) st = k st.
Proof. intros H. unfold bind, lift, raise_for_no. now rewrite H. Qed.

(** **** C1 *)

Lemma first_missing_session cr c :
  first_missing (required SESSION_REQUIRED) cr = Some c ->
  c = Sessdata /\ has_field Sessdata cr = false.
Proof.
  unfold first_missing; simpl.
  destruct (has_field Sessdata cr); simpl; [discriminate|].
  intros [= <-]. now split.
Qed.

Lemma first_missing_session_and_token cr c :
  first_missing (required SESSION_AND_WRITE_TOKEN_REQUIRED) cr = Some c ->
  (c = Sessdata /\ has_field Sessdata cr = false)
  \/ (c = BiliJct /\ has_field Sessdata cr = true /\ has_field BiliJct cr = false).
Proof.
  unfold first_missing; simpl.
  destruct (has_field Sessdata cr); simpl.
  - destruct (has_field BiliJct cr); simpl; [discriminate|].
    intros [= <-]. right. now repeat split.
  - intros [= <-]. left. now split.
Qed.

Ltac unfold_guarded :=
  cbn [run_op];
  unfold get_self_info, get_self_history, get_self_coins, modify_relation, send_msg,
    create_subscribe_group, delete_subscribe_group, rename_subscribe_group,
    set_subscribe_group, get_up_stat, raise_for_no_sessdata,
    raise_for_no_bili_jct.

Lemma missing_claim_aborts (op : Operation) (c : Claim) (st : State) :
  first_missing (required (classify op)) (op_credential op) = Some c ->
  run_op env op st = (Err (MissingCredentialError c), st).
Proof.
  intros H.
  destruct op as [u|u|cr|pn ps [cr|]|[cr|]|u r|u t|n cr|g cr|g n cr|us gs cr];
    cbn [classify op_credential] in H; try discriminate H.
  1-5: apply first_missing_session in H as [-> Hs]; unfold_guarded;
       now apply guard_fails.
  all: apply first_missing_session_and_token in H as [[-> Hs]|[-> [Hs Hj]]];
       unfold_guarded;
       [ now apply guard_fails
       | rewrite guard_passes by assumption; now apply guard_fails ].
Qed.

(** C1.  Every operation classified SESSION_REQUIRED or
    SESSION_AND_WRITE_TOKEN_REQUIRED (the PUBLIC ones require nothing, so
    no claim of theirs can be missing), invoked with a credential that
    misses a required claim, raises MissingCredentialError naming the first
    missing claim in checking order (session before write token) and
    leaves the state as it was: no event, hence no Requester call, was
    added to the trace. *)
Theorem C1_missing_claim_aborts_before_request (op : Operation) (c : Claim)
    (st : State) :
  first_missing (required (classify op)) (op_credential op) = Some c ->
  run_op env op st = (Err (MissingCredentialError c), st)
  /\ requests (issued (run_op env op) st) = [].
Proof.
  intros H. pose proof (missing_claim_aborts op c st H) as E.
  split; [exact E|].
  rewrite (issued_app (run_op env op) st []); [reflexivity|].
  rewrite E. simpl. now rewrite app_nil_r.
Qed.

(** **** C6 *)

(** C6.  The upload-statistics read checks the write-token claim and
    nothing else.  Without it the call raises MissingCredentialError naming
    that claim and the state is untouched (no Requester call); with it the
    one request to the [upstat] endpoint is issued and its answer returned,
    whatever the session claim is, absent included. *)
Theorem C6_up_stat_requires_write_token_only (u : User) (st : State) :
  (has_field BiliJct (credential u) = false ->
     get_up_stat env u st = (Err (MissingCredentialError BiliJct), st))
  /\ (has_field BiliJct (credential u) = true ->
      get_up_stat env u st =
        (requester env (trace st) (upstat_request env u),
         mkState (trace st ++ [EvRequest (upstat_request env u)]) (heap st))).
Proof.
  split; intros H; unfold get_up_stat, raise_for_no_bili_jct.
  - now apply guard_fails.
  - rewrite guard_passes by assumption. apply request_run.
Qed.

(** **** C8 *)

Lemma issued_request m url ps d c st :
  issued (request env m url ps d c) st = [EvRequest (mkRequest m url ps d c)].
Proof. apply issued_app. reflexivity. Qed.

Lemma issued_get_dynamics u offset need_top st :
  issued (get_dynamics env u offset need_top) st =
  [EvRequest (mkRequest GET (API env "info" "dynamic")
     (Some [("host_uid", JInt (uid u)); ("offset_dynamic_id", JInt offset);
            ("need_top", if need_top then JInt 1 else JInt 0)])
     None (Some (credential u)))].
Proof.
  apply issued_app. unfold get_dynamics, bind. rewrite request_run.
  destruct (requester env _ _); reflexivity.
Qed.

Lemma issued_modify_relation u relation st :
  has_field Sessdata (credential u) = true ->
  has_field BiliJct (credential u) = true ->
  issued (modify_relation env u relation) st =
  [EvRequest (mkRequest POST (API env "operate" "modify") None
     (Some [("fid", JInt (uid u)); ("act", RelationType_value relation);
            ("re_src", JInt 11)])
     (Some (credential u)))].
Proof.
  intros Hs Hj. apply issued_app.
  unfold modify_relation, raise_for_no_sessdata, raise_for_no_bili_jct.
  now rewrite !guard_passes by assumption.
Qed.

(** C8.  Serialization is per endpoint.  Each listing issues one request
    whose enumeration parameter is the [.value] of the argument (the values
    are the ones the source gives, never the member names); [need_top] of
    the dynamics feed goes out as the int 1 or 0; the ordering flag of the
    followings and followers lists goes out as the str "desc" or "asc".
    The relation change, once its credential checks pass, sends the
    [.value] of the relation as [act]. *)
Theorem C8_per_endpoint_serialization (u : User) (st : State) :
  (forall tid pn ps keyword order,
      map (param_of "order") (issued (User_get_videos env u tid pn ps keyword order) st)
      = [Some (VideoOrder_value order)])
  /\ (forall order pn ps,
      map (param_of "order") (issued (get_audios env u order pn ps) st)
      = [Some (AudioOrder_value order)])
  /\ (forall pn order ps,
      map (param_of "sort") (issued (get_articles env u pn order ps) st)
      = [Some (ArticleOrder_value order)])
  /\ (forall order,
      map (param_of "sort") (issued (get_article_list env u order) st)
      = [Some (ArticleListOrder_value order)])
  /\ (forall pn type_,
      map (param_of "type") (issued (get_subscribed_bangumi env u pn type_) st)
      = [Some (BangumiType_value type_)])
  /\ (forall sid sort pn ps,
      map (param_of "sort_reverse")
          (issued (get_channel_videos_season env u sid sort pn ps) st)
      = [Some (ChannelOrder_value sort)])
  /\ (forall relation,
      has_field Sessdata (credential u) = true ->
      has_field BiliJct (credential u) = true ->
      map (data_of "act") (issued (modify_relation env u relation) st)
      = [Some (RelationType_value relation)])
  /\ (forall offset need_top,
      map (param_of "need_top") (issued (get_dynamics env u offset need_top) st)
      = [Some (JInt (if need_top then 1 else 0))])
  /\ (forall pn desc,
      map (param_of "order") (issued (get_followings env u pn desc) st)
      = [Some (JStr (if desc then "desc" else "asc"))])
  /\ (forall pn desc,
      map (param_of "order") (issued (get_followers env u pn desc) st)
      = [Some (JStr (if desc then "desc" else "asc"))])
  /\ map VideoOrder_value [VideoOrder_PUBDATE; VideoOrder_FAVORATE; VideoOrder_VIEW]
     = [JStr "pubdate"; JStr "stow"; JStr "click"]
  /\ map AudioOrder_value [AudioOrder_PUBDATE; AudioOrder_VIEW; AudioOrder_FAVORATE]
     = [JInt 1; JInt 2; JInt 3]
  /\ map ArticleOrder_value [ArticleOrder_PUBDATE; ArticleOrder_FAVORATE; ArticleOrder_VIEW]
     = [JStr "publish_time"; JStr "fav"; JStr "view"]
  /\ map ArticleListOrder_value [ArticleListOrder_LATEST; ArticleListOrder_VIEW]
     = [JInt 0; JInt 1]
  /\ map BangumiType_value [BangumiType_BANGUMI; BangumiType_DRAMA]
     = [JInt 1; JInt 2]
  /\ map ChannelOrder_value [ChannelOrder_DEFAULT; ChannelOrder_CHANGE]
     = [JStr "false"; JStr "true"]
  /\ map RelationType_value
         [SUBSCRIBE; UNSUBSCRIBE; SUBSCRIBE_SECRETLY; BLOCK; UNBLOCK; REMOVE_FANS]
     = [JInt 1; JInt 2; JInt 3; JInt 5; JInt 6; JInt 7].
Proof.
  repeat split; intros.
  1-6: unfold User_get_videos, get_audios, get_articles, get_article_list,
         get_subscribed_bangumi, get_channel_videos_season;
       rewrite issued_request; reflexivity.
  - rewrite issued_modify_relation by assumption. reflexivity.
  - rewrite issued_get_dynamics. now destruct need_top.
  - unfold get_followings. rewrite issued_request. now destruct desc.
  - unfold get_followers. rewrite issued_request. now destruct desc.
Qed.

(** **** C9 *)

(** C9.  Listing the videos of a collection dispatches on its kind.  A
    SEASON collection issues the one request of the season endpoint, with
    [sort_reverse] set to the value of the sort order.  A legacy SERIES
    collection issues the one request of the series endpoint, which has no
    sort parameter: two calls that differ only in the sort order behave the
    same, request and result. *)
Theorem C9_list_videos_dispatches_on_kind (cs : ChannelSeries)
    (sort : ChannelOrder) (pn ps : Z) (st : State) :
  (is_new cs = ChannelSeriesType_value SEASON ->
     issued (ChannelSeries_get_videos env cs sort pn ps) st
       = [EvRequest (season_request env (owner cs) (id_ cs) sort pn ps)]
     /\ map (param_of "sort_reverse")
            (issued (ChannelSeries_get_videos env cs sort pn ps) st)
        = [Some (ChannelOrder_value sort)])
  /\ (is_new cs = ChannelSeriesType_value SERIES ->
      issued (ChannelSeries_get_videos env cs sort pn ps) st
        = [EvRequest (series_request env (owner cs) (id_ cs) pn ps)]
      /\ forall sort',
          ChannelSeries_get_videos env cs sort' pn ps st
          = ChannelSeries_get_videos env cs sort pn ps st).
Proof.
  split; intros H; unfold ChannelSeries_get_videos; rewrite H; simpl.
  - unfold get_channel_videos_season. rewrite issued_request. now split.
  - unfold get_channel_videos_series. rewrite issued_request. now split.
Qed.

(** **** C10 *)

(** C10.  The course listing never hands the credential to the Requester:
    two profiles with the same user id behave identically whatever their
    credentials (and cached identities) are, and the one request issued is
    the GET of the [pugv] endpoint with [mid] only and no credential. *)
Theorem C10_cheese_independent_of_credential (user_id : Z) (c1 c2 : Credential)
    (a1 a2 : nat) (st : State) :
  get_cheese env (mkUser user_id c1 a1) st = get_cheese env (mkUser user_id c2 a2) st
  /\ issued (get_cheese env (mkUser user_id c1 a1)) st
     = [EvRequest (cheese_request env user_id)]
  /\ issued (get_cheese env (mkUser user_id c2 a2)) st
     = [EvRequest (cheese_request env user_id)].
Proof.
  unfold get_cheese. rewrite !issued_request. now repeat split.
Qed.

(** **** C2 *)

Lemma get_channel_list_run (u : User) (st : State) (res il pg total : JSON) :
  requester env (trace st) (channel_list_request env u (JInt 1)) = Ok res ->
  py_getitem res "items_lists" = Ok il ->
  py_getitem il "page" = Ok pg ->
  py_getitem pg "total" = Ok total ->
  let size := if py_eq_int total 0 then JInt 1 else total in
  let before := trace st ++ [EvRequest (channel_list_request env u (JInt 1));
                             EvSleep (1 # 2)] in
  get_channel_list env u st =
    (requester env before (channel_list_request env u size),
     mkState (before ++ [EvRequest (channel_list_request env u size)]) (heap st)).
Proof.
  intros Hres Hil Hpg Htot size before.
  unfold get_channel_list, bind. rewrite request_run.
  unfold channel_list_request in Hres. rewrite Hres.
  unfold lift. rewrite Hil. simpl. rewrite Hpg. simpl. rewrite Htot.
  unfold time_sleep, emit. simpl. rewrite request_run. simpl.
  subst before size. rewrite <- !app_assoc. simpl.
  unfold channel_list_request.
  destruct (py_eq_int total 0); reflexivity.
Qed.

(** C2.  When the probe (page size 1) is answered with an envelope whose
    total is the int N, the full-collection-list operation adds exactly
    three events to the trace: the probe, the pause of half a second, and a
    second request that differs from the probe in its page size only.  That
    page size is 1 when N is 0 and N otherwise (so exactly N when N > 0).
    These are its only two Requester calls, and its result is the answer to
    the second one. *)
Theorem C2_channel_list_two_step (u : User) (st : State) (res il pg : JSON)
    (N : Z) :
  requester env (trace st) (channel_list_request env u (JInt 1)) = Ok res ->
  py_getitem res "items_lists" = Ok il ->
  py_getitem il "page" = Ok pg ->
  py_getitem pg "total" = Ok (JInt N) ->
  let size := if N =? 0 then 1 else N in
  issued (get_channel_list env u) st
    = [EvRequest (channel_list_request env u (JInt 1));
       EvSleep (1 # 2);
       EvRequest (channel_list_request env u (JInt size))]
  /\ requests (issued (get_channel_list env u) st)
     = [channel_list_request env u (JInt 1);
        channel_list_request env u (JInt size)]
  /\ (N = 0 -> size = 1)
  /\ (0 < N -> size = N)
  /\ fst (get_channel_list env u st)
     = requester env
         (trace st ++ [EvRequest (channel_list_request env u (JInt 1));
                       EvSleep (1 # 2)])
         (channel_list_request env u (JInt size)).
Proof.
  intros Hres Hil Hpg Htot size.
  pose proof (get_channel_list_run u st res il pg (JInt N) Hres Hil Hpg Htot) as E.
  cbn zeta in E. simpl py_eq_int in E.
  assert (Es : (if N =? 0 then JInt 1 else JInt N) = JInt size)
    by (subst size; now destruct (N =? 0)).
  rewrite Es in E.
  assert (I : issued (get_channel_list env u) st
              = [EvRequest (channel_list_request env u (JInt 1));
                 EvSleep (1 # 2);
                 EvRequest (channel_list_request env u (JInt size))]).
  { apply issued_app. rewrite E. simpl. now rewrite <- app_assoc. }
  repeat split.
  - exact I.
  - now rewrite I.
  - intros ->. reflexivity.
  - intros HN. subst size. destruct (Z.eqb_spec N 0); [lia | reflexivity].
  - now rewrite E.
Qed.

(** **** C3 *)

Lemma get_dynamics_result u offset need_top st data :
  requester env (trace st) (dynamics_request env u offset need_top) = Ok data ->
  fst (get_dynamics env u offset need_top st) = unwrap_dynamics env data.
Proof.
  intros H. unfold get_dynamics, bind. rewrite request_run.
  unfold dynamics_request in H. now rewrite H.
Qed.

Lemma unwrap_card_ok f s1 s2 v1 v2 :
  dict_get "card" f = Some (JStr s1) ->
  dict_get "extend_json" f = Some (JStr s2) ->
  loads env s1 = Some v1 ->
  loads env s2 = Some v2 ->
  unwrap_card env (JObj f)
  = Ok (JObj (dict_set "extend_json" v2 (dict_set "card" v1 f))).
Proof.
  intros H1 H2 L1 L2. unfold unwrap_card, py_getitem, json_loads, rbind; simpl.
  rewrite H1, L1.
  rewrite dict_get_set_other by discriminate.
  now rewrite H2, L2.
Qed.

Lemma carries_encoded_decoded item :
  carries_encoded env item = true ->
  exists item', unwrap_card env item = Ok item' /\ decoded env item item'.
Proof.
  destruct item as [| | | |l|f]; try discriminate. simpl.
  destruct (dict_get "card" f) as [[| | |s1| |]|] eqn:H1; try discriminate.
  destruct (dict_get "extend_json" f) as [[| | |s2| |]|] eqn:H2; try discriminate.
  destruct (loads env s1) as [v1|] eqn:L1; try discriminate.
  destruct (loads env s2) as [v2|] eqn:L2; try discriminate.
  intros _. eexists. split; [now apply (unwrap_card_ok f s1 s2 v1 v2)|].
  repeat split.
  - exists f, (dict_set "extend_json" v2 (dict_set "card" v1 f)), s1, v1.
    repeat split; try assumption.
    rewrite dict_get_set_other by discriminate. apply dict_get_set_same.
  - exists f, (dict_set "extend_json" v2 (dict_set "card" v1 f)), s2, v2.
    repeat split; try assumption.
    apply dict_get_set_same.
  - exists f, (dict_set "extend_json" v2 (dict_set "card" v1 f)).
    repeat split.
    + rewrite dict_set_keys.
      * apply dict_set_keys. unfold dict_has. now rewrite H1.
      * unfold dict_has. rewrite dict_get_set_other by discriminate.
        now rewrite H2.
    + intros k Hc He. now rewrite !dict_get_set_other by assumption.
Qed.

Lemma unwrap_cards_ok items :
  Forall (fun item => carries_encoded env item = true) items ->
  exists items', unwrap_cards env items = Ok items'
                 /\ Forall2 (decoded env) items items'.
Proof.
  induction 1 as [|item items Hitem _ IH].
  - exists []. split; [reflexivity | constructor].
  - destruct (carries_encoded_decoded item Hitem) as (item' & E & D).
    destruct IH as (items' & E' & D').
    exists (item' :: items'). simpl. rewrite E. simpl. rewrite E'. simpl.
    split; [reflexivity | now constructor].
Qed.

Lemma unwrap_card_lacks_card f :
  dict_has "card" f = false -> unwrap_card env (JObj f) = Err (KeyError "card").
Proof.
  unfold dict_has, unwrap_card, py_getitem. simpl.
  destruct (dict_get "card" f); [discriminate | reflexivity].
Qed.

Lemma unwrap_card_lacks_extend_json f s v :
  dict_get "card" f = Some (JStr s) ->
  loads env s = Some v ->
  dict_has "extend_json" f = false ->
  unwrap_card env (JObj f) = Err (KeyError "extend_json").
Proof.
  intros H1 L1 H2.
  unfold dict_has in H2. unfold unwrap_card, py_getitem, json_loads. simpl.
  rewrite H1. simpl. rewrite L1. simpl.
  rewrite dict_get_set_other by discriminate.
  destruct (dict_get "extend_json" f); [discriminate | reflexivity].
Qed.

Lemma unwrap_card_lacking_fails f :
  dict_has "card" f = false \/ dict_has "extend_json" f = false ->
  is_ok (unwrap_card env (JObj f)) = false.
Proof.
  intros [H|H].
  - now rewrite unwrap_card_lacks_card.
  - unfold unwrap_card, py_getitem. simpl.
    destruct (dict_get "card" f) as [x|]; [simpl|reflexivity].
    destruct (json_loads env x) as [v|]; [simpl|reflexivity].
    rewrite dict_get_set_other by discriminate.
    unfold dict_has in H.
    destruct (dict_get "extend_json" f); [discriminate | reflexivity].
Qed.

Lemma unwrap_cards_first_failure pre item post e :
  Forall (fun item => carries_encoded env item = true) pre ->
  unwrap_card env item = Err e ->
  unwrap_cards env (pre ++ item :: post) = Err e.
Proof.
  intros Hpre Hitem. induction Hpre as [|x pre Hx _ IH]; simpl.
  - now rewrite Hitem.
  - destruct (carries_encoded_decoded x Hx) as (x' & E & _).
    rewrite E. simpl. now rewrite IH.
Qed.

Lemma unwrap_cards_some_failure items item :
  In item items ->
  is_ok (unwrap_card env item) = false ->
  is_ok (unwrap_cards env items) = false.
Proof.
  induction items as [|x items IH]; simpl; [tauto|].
  intros [->|Hin] Hf.
  - destruct (unwrap_card env item); [discriminate | reflexivity].
  - destruct (unwrap_card env x); [simpl | reflexivity].
    specialize (IH Hin Hf).
    destruct (unwrap_cards env items); [discriminate | reflexivity].
Qed.

Lemma unwrap_dynamics_list d items :
  dict_get "cards" d = Some (JArr items) ->
  unwrap_dynamics env (JObj d)
  = rbind (unwrap_cards env items)
      (fun items' => Ok (JObj (dict_set "cards" (JArr items') d))).
Proof.
  intros H. unfold unwrap_dynamics, py_contains, dict_has, py_getitem. simpl.
  now rewrite H.
Qed.

(** C3, amended.  The dynamics feed answers with a mapping.  Without a
    "cards" key the payload is returned as it is.  With a "cards" list whose
    items all carry "card" and "extend_json" as str that [json.loads]
    decodes, the result is the payload with each item's two fields replaced
    in place by what parsing the original str gives, every other field and
    the key order untouched.  An item that lacks one of the two fields does
    not pass through: the operation fails, with KeyError naming the field
    when the item is the first that cannot be decoded. *)
Theorem C3_unwrap_decodes_or_fails (u : User) (offset : Z) (need_top : bool)
    (st : State) (d : Dict) :
  requester env (trace st) (dynamics_request env u offset need_top) = Ok (JObj d) ->
  let result := fst (get_dynamics env u offset need_top st) in
  (dict_has "cards" d = false -> result = Ok (JObj d))
  /\ (forall items,
        dict_get "cards" d = Some (JArr items) ->
        Forall (fun item => carries_encoded env item = true) items ->
        exists items',
          result = Ok (JObj (dict_set "cards" (JArr items') d))
          /\ Forall2 (decoded env) items items')
  /\ (forall items f,
        dict_get "cards" d = Some (JArr items) ->
        In (JObj f) items ->
        dict_has "card" f = false \/ dict_has "extend_json" f = false ->
        is_ok result = false)
  /\ (forall pre f post,
        dict_get "cards" d = Some (JArr (pre ++ JObj f :: post)) ->
        Forall (fun item => carries_encoded env item = true) pre ->
        (dict_has "card" f = false -> result = Err (KeyError "card"))
        /\ (forall s v,
              dict_get "card" f = Some (JStr s) ->
              loads env s = Some v ->
              dict_has "extend_json" f = false ->
              result = Err (KeyError "extend_json"))).
Proof.
  intros Hreq result.
  assert (R : result = unwrap_dynamics env (JObj d))
    by (subst result; now apply get_dynamics_result).
  rewrite R. clear R result Hreq.
  split; [|split; [|split]].
  - intros H. unfold unwrap_dynamics, py_contains. simpl. now rewrite H.
  - intros items Hc Hall.
    destruct (unwrap_cards_ok items Hall) as (items' & E & D).
    exists items'. rewrite (unwrap_dynamics_list d items Hc), E. now split.
  - intros items f Hc Hin Hlack.
    rewrite (unwrap_dynamics_list d items Hc).
    pose proof (unwrap_cards_some_failure items (JObj f) Hin
                  (unwrap_card_lacking_fails f Hlack)) as F.
    destruct (unwrap_cards env items); [discriminate | reflexivity].
  - intros pre f post Hc Hpre.
    rewrite (unwrap_dynamics_list d _ Hc).
    split.
    + intros H.
      now rewrite (unwrap_cards_first_failure pre (JObj f) post _ Hpre
                     (unwrap_card_lacks_card f H)).
    + intros s v H1 L1 H2.
      now rewrite (unwrap_cards_first_failure pre (JObj f) post _ Hpre
                     (unwrap_card_lacks_extend_json f s v H1 L1 H2)).
Qed.

(** **** C4 and C5 *)

Lemma scan_channels_spec is_new id_ channels found :
  Forall (fun c => well_formed_entry (id_key is_new) c = true) channels ->
  scan_channels is_new id_ channels found
  = Ok (match last_match (id_key is_new) id_ channels with
        | Some m => JObj m
        | None => found
        end).
Proof.
  intros H. revert found.
  induction H as [|c channels Hc _ IH]; intros found; [reflexivity|].
  cbn [scan_channels last_match]. unfold well_formed_entry in Hc.
  fold (id_key is_new).
  destruct c as [| | | | |d]; try discriminate Hc. cbn [entry_meta] in *.
  unfold py_getitem at 1.
  destruct (dict_get "meta" d) as [[| | | | |m]|]; try discriminate Hc.
  cbn [rbind py_getitem].
  destruct (dict_get (id_key is_new) m) as [t|]; try discriminate Hc.
  cbn [rbind]. rewrite IH.
  destruct (last_match (id_key is_new) id_ channels); [reflexivity|].
  now destruct (py_eq_int t id_).
Qed.

Lemma last_match_exists key id_ channels :
  existsb (entry_matches key id_) channels
  = match last_match key id_ channels with Some _ => true | None => false end.
Proof.
  induction channels as [|c channels IH]; [reflexivity|].
  cbn [existsb last_match]. rewrite IH.
  destruct (last_match key id_ channels); [apply orb_true_r|].
  rewrite orb_false_r. unfold entry_matches.
  destruct (entry_meta key c) as [[m t]|]; [|reflexivity].
  now destruct (py_eq_int t id_).
Qed.

(** What the scan leaves in [self.meta] is what was there before or a
    mapping that holds the id key. *)
Lemma scan_channels_found is_new id_ channels found r :
  scan_channels is_new id_ channels found = Ok r ->
  r = found \/ nonempty_mapping r = true.
Proof.
  revert found. induction channels as [|c channels IH]; intros found.
  - intros [= <-]. now left.
  - cbn [scan_channels].
    destruct (py_getitem c "meta") as [m|]; [|discriminate].
    cbn [rbind].
    destruct (py_getitem m _) as [t|] eqn:Ht; [|discriminate].
    cbn [rbind]. intros H. apply IH in H.
    assert (Hm : nonempty_mapping m = true).
    { destruct m as [| | | | |[|kv f]]; try discriminate Ht. reflexivity. }
    destruct H as [->|H]; [|now right].
    destruct (py_eq_int t id_); [now right | now left].
Qed.

Lemma ChannelSeries_init_supplied user_id type_ id_ cr supplied st :
  supplied <> JNull ->
  ChannelSeries_init env user_id type_ id_ cr supplied st
  = (Ok (mkChannelSeries user_id (ChannelSeriesType_value type_) id_
           (owner_at st user_id cr) cr supplied),
     mkState (trace st) (heap st ++ [JNull])).
Proof.
  intros H. unfold ChannelSeries_init, User_init, bind, new_cell, ret. simpl.
  destruct supplied; try reflexivity. congruence.
Qed.

Lemma ChannelSeries_init_fetched user_id type_ id_ cr st channels :
  let is_new := ChannelSeriesType_value type_ in
  let owner := owner_at st user_id cr in
  fetches env owner st (list_key is_new) channels ->
  exists second,
    ChannelSeries_init env user_id type_ id_ cr JNull st
    = (match scan_channels is_new id_ channels JNull with
       | Ok found =>
           if is_None found then Err (ValueError not_found_message)
           else Ok (mkChannelSeries user_id is_new id_ owner cr found)
       | Err e => Err e
       end,
       mkState (trace st ++ [EvRequest (channel_list_request env owner (JInt 1));
                             EvSleep (1 # 2); EvRequest second])
               (heap st ++ [JNull])).
Proof.
  intros is_new owner (res & il & pg & total & cl & il2 & H).
  destruct H as (Hres & Hil & Hpg & Htot & Hcl & Hil2 & Hch).
  eexists.
  unfold ChannelSeries_init. unfold bind at 1. unfold User_init, bind at 1.
  cbn [new_cell ret]. cbn [is_None].
  change (mkUser user_id (match cr with Some c => c | None => anonymous end)
            (length (heap st))) with owner.
  unfold bind at 1.
  set (st1 := mkState (trace st) (heap st ++ [JNull])).
  pose proof (get_channel_list_run owner st1 res il pg total Hres Hil Hpg Htot)
    as E.
  cbn zeta in E. rewrite E. clear E.
  cbn [trace st1]. rewrite Hcl.
  unfold bind, lift. rewrite Hil2. cbn [rbind].
  fold is_new. fold (list_key is_new). rewrite Hch. cbn [rbind py_iter].
  destruct (scan_channels is_new id_ channels JNull) as [found|e].
  - destruct (is_None found); unfold raise, ret; cbn [heap st1];
      rewrite <- app_assoc; reflexivity.
  - cbn [heap st1]. rewrite <- app_assoc. reflexivity.
Qed.

Lemma rbind_ok {A B} (r : Result A) (f : A -> Result B) b :
  rbind r f = Ok b -> exists a, r = Ok a /\ f a = Ok b.
Proof. destruct r as [a|e]; [|discriminate]. intros H. now exists a. Qed.

(** C4, amended.  Constructing a collection with metadata supplied (any
    value but None, a non-empty mapping in particular) calls the Requester
    zero times and keeps that metadata.  Constructing without metadata runs
    the owner's two-step listing, so when that listing succeeds with
    well-formed entries the Requester is called exactly twice (not once);
    the construction then resolves to the metadata of the last entry whose
    id equals the collection id, and fails with ValueError (the
    collection-not-found error) when no entry has that id. *)
Theorem C4_construction_requester_calls (user_id : Z) (type_ : ChannelSeriesType)
    (id_ : Z) (cr : option Credential) (st : State) :
  let is_new := ChannelSeriesType_value type_ in
  let new := ChannelSeries_init env user_id type_ id_ cr in
  (forall supplied,
      supplied <> JNull ->
      requests (issued (new supplied) st) = []
      /\ exists cs, fst (new supplied st) = Ok cs /\ meta cs = supplied)
  /\ (forall channels,
        fetches env (owner_at st user_id cr) st (list_key is_new) channels ->
        Forall (fun c => well_formed_entry (id_key is_new) c = true) channels ->
        length (requests (issued (new JNull) st)) = 2%nat
        /\ (existsb (entry_matches (id_key is_new) id_) channels = true ->
            exists cs m,
              fst (new JNull st) = Ok cs
              /\ meta cs = JObj m
              /\ last_match (id_key is_new) id_ channels = Some m)
        /\ (existsb (entry_matches (id_key is_new) id_) channels = false ->
            fst (new JNull st) = Err (ValueError not_found_message))).
Proof.
  intros is_new new. split.
  - intros supplied H. subst new.
    pose proof (ChannelSeries_init_supplied user_id type_ id_ cr supplied st H) as E.
    split.
    + rewrite (issued_app _ st []); [reflexivity|].
      rewrite E. simpl. now rewrite app_nil_r.
    + eexists. rewrite E. split; reflexivity.
  - intros channels Hf Hwf. subst new.
    destruct (ChannelSeries_init_fetched user_id type_ id_ cr st channels Hf)
      as (second & E).
    fold is_new in E. rewrite (scan_channels_spec _ _ _ _ Hwf) in E.
    rewrite last_match_exists.
    split; [|split].
    + erewrite issued_app; [|rewrite E; reflexivity]. reflexivity.
    + rewrite E. destruct (last_match (id_key is_new) id_ channels) as [m|];
        [|discriminate].
      intros _. eexists. exists m. simpl. now repeat split.
    + rewrite E. destruct (last_match (id_key is_new) id_ channels) as [m|];
        [discriminate|].
      reflexivity.
Qed.

(** C5, amended.  After a construction that succeeds the metadata is never
    None.  Metadata that was fetched is a non-empty mapping (it holds the id
    key the scan compared).  Metadata that was supplied is stored as it is:
    it is non-empty when the caller's mapping was, and an empty mapping
    supplied by the caller stays empty. *)
Theorem C5_metadata_after_construction (user_id : Z) (type_ : ChannelSeriesType)
    (id_ : Z) (cr : option Credential) (supplied : JSON) (st : State)
    (cs : ChannelSeries) :
  fst (ChannelSeries_init env user_id type_ id_ cr supplied st) = Ok cs ->
  meta cs <> JNull
  /\ (supplied = JNull -> nonempty_mapping (meta cs) = true)
  /\ (supplied <> JNull -> meta cs = supplied)
  /\ (nonempty_mapping supplied = true -> nonempty_mapping (meta cs) = true).
Proof.
  intros H.
  assert (D : (supplied = JNull /\ nonempty_mapping (meta cs) = true)
              \/ (supplied <> JNull /\ meta cs = supplied)).
  { destruct (is_None supplied) eqn:Hn.
    - left. destruct supplied; try discriminate Hn. split; [reflexivity|].
      unfold ChannelSeries_init, User_init in H. unfold bind at 1 2 in H.
      cbn [new_cell ret is_None] in H. unfold bind at 1 in H.
      destruct (get_channel_list env _ _) as [[cl|e] st2]; [|discriminate H].
      unfold bind, lift in H.
      match type of H with
      | context [rbind ?r ?f] => destruct (rbind r f) as [found|e] eqn:F
      end; [|discriminate H].
      apply rbind_ok in F as (il & _ & F).
      apply rbind_ok in F as (l & _ & F).
      apply rbind_ok in F as (channels & _ & F).
      apply scan_channels_found in F.
      destruct (is_None found) eqn:Hf; [discriminate H|].
      injection H as <-. cbn [meta].
      destruct F as [->|F]; [discriminate Hf | exact F].
    - right. assert (Hs : supplied <> JNull) by (intros ->; discriminate Hn).
      split; [exact Hs|].
      rewrite (ChannelSeries_init_supplied _ _ _ _ _ _ Hs) in H.
      injection H as <-. reflexivity. }
  destruct D as [[-> Hm]|[Hs Hm]].
  - split; [|split; [|split]]; try congruence; try discriminate;
      try (intros E; rewrite E in Hm; discriminate).
  - split; [|split; [|split]]; try congruence;
      try (intros E; now rewrite Hm).
Qed.

(** **** C7 *)

Lemma nth_store_set a v h :
  (a < length h)%nat -> nth a (store_set a v h) JNull = v.
Proof.
  revert a. induction h as [|x h IH]; intros a Ha; simpl in Ha; [lia|].
  destruct a as [|a]; [reflexivity|]. simpl. apply IH. lia.
Qed.

Lemma length_store_set a v h : length (store_set a v h) = length h.
Proof.
  revert a. induction h as [|x h IH]; intros [|a]; simpl; auto.
Qed.

(** With the identity cached, nothing is asked. *)
Lemma get_self_info_cached u st :
  nth (self_info u) (heap st) JNull <> JNull ->
  User__get_self_info env u st = (Ok (nth (self_info u) (heap st) JNull), st).
Proof.
  intros H. unfold User__get_self_info, bind, read_cell.
  destruct (nth (self_info u) (heap st) JNull); try reflexivity. congruence.
Qed.

(** Without it, the answer of the one lookup is stored in the instance. *)
Lemma get_self_info_fetches u st v :
  has_field Sessdata (credential u) = true ->
  (self_info u < length (heap st))%nat ->
  nth (self_info u) (heap st) JNull = JNull ->
  requester env (trace st) (identity_request env (credential u)) = Ok v ->
  User__get_self_info env u st
  = (Ok v,
     mkState (trace st ++ [EvRequest (identity_request env (credential u))])
             (store_set (self_info u) v (heap st))).
Proof.
  intros Hs Ha Hc Hv. unfold User__get_self_info. unfold bind at 1.
  unfold read_cell at 1. rewrite Hc. cbn [is_None negb].
  unfold bind at 1. unfold get_self_info, raise_for_no_sessdata.
  rewrite guard_passes by assumption. rewrite request_run.
  unfold identity_request in Hv. rewrite Hv.
  unfold bind, write_cell, read_cell. cbn [heap trace].
  now rewrite nth_store_set.
Qed.

(** The events of one send once the identity is known: the POST, or
    nothing when the identity has no "mid". *)
Lemma send_msg_after_identity u text st self_info :
  exists l,
    snd (bind (lift (py_getitem self_info "mid"))
           (fun sender_uid =>
              bind (int_time env)
                (fun timestamp =>
                   request env POST (API env "operate" "send_msg") None
                     (Some
                        [("msg[sender_uid]", sender_uid);
                         ("msg[receiver_id]", JInt (uid u));
                         ("msg[receiver_type]", JInt 1);
                         ("msg[msg_type]", JInt 1);
                         ("msg[msg_status]", JInt 0);
                         ("msg[content]",
                           JStr (dumps env (JObj [("content", JStr text)])));
                         ("msg[dev_id]",
                           JStr "B9A37BF3-AA9D-4076-A4D3-366AC8C4C5DB");
                         ("msg[new_face_version]", JStr "0");
                         ("msg[timestamp]", JInt timestamp);
                         ("from_filework", JInt 0);
                         ("build", JInt 0);
                         ("mobi_app", JStr "web")])
                     (Some (credential u)))) st)
    = mkState (trace st ++ l) (heap st)
    /\ filter (is_identity_lookup env) (requests l) = [].
Proof.
  unfold bind, lift, int_time.
  destruct (py_getitem self_info "mid") as [sender|e].
  - rewrite request_run. eexists. split; [reflexivity|]. reflexivity.
  - exists []. simpl. rewrite app_nil_r. now destruct st.
Qed.

Lemma send_msg_cached u text st :
  has_field Sessdata (credential u) = true ->
  has_field BiliJct (credential u) = true ->
  nth (self_info u) (heap st) JNull <> JNull ->
  exists l,
    snd (send_msg env u text st) = mkState (trace st ++ l) (heap st)
    /\ filter (is_identity_lookup env) (requests l) = [].
Proof.
  intros Hs Hj Hc.
  unfold send_msg, raise_for_no_sessdata, raise_for_no_bili_jct.
  rewrite !guard_passes by assumption.
  unfold bind at 1. rewrite get_self_info_cached by assumption.
  apply send_msg_after_identity.
Qed.

Lemma send_msg_first u text st v :
  has_field Sessdata (credential u) = true ->
  has_field BiliJct (credential u) = true ->
  (self_info u < length (heap st))%nat ->
  nth (self_info u) (heap st) JNull = JNull ->
  requester env (trace st) (identity_request env (credential u)) = Ok v ->
  exists l,
    snd (send_msg env u text st)
    = mkState (trace st ++ EvRequest (identity_request env (credential u)) :: l)
              (store_set (self_info u) v (heap st))
    /\ filter (is_identity_lookup env) (requests l) = [].
Proof.
  intros Hs Hj Ha Hc Hv.
  unfold send_msg, raise_for_no_sessdata, raise_for_no_bili_jct.
  rewrite !guard_passes by assumption.
  unfold bind at 1. rewrite (get_self_info_fetches u st v) by assumption.
  match goal with
  | |- context [snd (?m ?s)] =>
      destruct (send_msg_after_identity u text s v) as (l & E & F)
  end.
  exists l. rewrite E. cbn [trace heap]. rewrite <- app_assoc. now split.
Qed.

Lemma run_all_cons {A} (op : M A) ops st :
  snd (run_all (op :: ops) st) = snd (run_all ops (snd (op st))).
Proof.
  simpl. destruct (op st) as [r st1]. simpl.
  now destruct (run_all ops st1).
Qed.

(** Once the identity is cached, any number of sends leave it alone and
    ask for it no more. *)
Lemma sends_cached u texts st :
  has_field Sessdata (credential u) = true ->
  has_field BiliJct (credential u) = true ->
  nth (self_info u) (heap st) JNull <> JNull ->
  exists l,
    snd (run_all (map (send_msg env u) texts) st) = mkState (trace st ++ l) (heap st)
    /\ filter (is_identity_lookup env) (requests l) = [].
Proof.
  intros Hs Hj. revert st.
  induction texts as [|t texts IH]; intros st Hc.
  - exists []. simpl. rewrite app_nil_r. now destruct st.
  - cbn [map]. rewrite run_all_cons.
    destruct (send_msg_cached u t st Hs Hj Hc) as (l1 & E1 & F1).
    rewrite E1.
    destruct (IH (mkState (trace st ++ l1) (heap st)) Hc) as (l2 & E2 & F2).
    exists (l1 ++ l2). rewrite E2. cbn [trace heap]. rewrite app_assoc.
    split; [reflexivity|].
    now rewrite requests_app, filter_app, F1, F2.
Qed.

Lemma identity_request_is_lookup cr :
  is_identity_lookup env (identity_request env cr) = true.
Proof. unfold is_identity_lookup. simpl. apply String.eqb_refl. Qed.

Lemma sends_fetch_identity_once u texts st v :
  has_field Sessdata (credential u) = true ->
  has_field BiliJct (credential u) = true ->
  (self_info u < length (heap st))%nat ->
  nth (self_info u) (heap st) JNull = JNull ->
  requester env (trace st) (identity_request env (credential u)) = Ok v ->
  v <> JNull ->
  texts <> [] ->
  identity_lookups env (issued (run_all (map (send_msg env u) texts)) st) = 1%nat
  /\ nth (self_info u) (heap (snd (run_all (map (send_msg env u) texts) st))) JNull
     = v.
Proof.
  intros Hs Hj Ha Hc Hv Hnn Hne.
  destruct texts as [|t texts]; [congruence|]. clear Hne.
  destruct (send_msg_first u t st v Hs Hj Ha Hc Hv) as (l1 & E1 & F1).
  assert (Hc1 : nth (self_info u) (heap (snd (send_msg env u t st))) JNull <> JNull).
  { rewrite E1. cbn [heap]. now rewrite nth_store_set. }
  destruct (sends_cached u texts _ Hs Hj Hc1) as (l2 & E2 & F2).
  assert (E : snd (run_all (map (send_msg env u) (t :: texts)) st)
              = mkState (trace st
                           ++ EvRequest (identity_request env (credential u))
                              :: l1 ++ l2)
                        (store_set (self_info u) v (heap st))).
  { cbn [map]. rewrite run_all_cons, E2, E1. cbn [trace heap].
    now rewrite <- app_assoc. }
  split.
  - erewrite issued_app; [|rewrite E; reflexivity].
    unfold identity_lookups. cbn [requests flat_map app filter].
    rewrite identity_request_is_lookup.
    fold (requests (l1 ++ l2)).
    now rewrite requests_app, filter_app, F1, F2.
  - rewrite E. cbn [heap]. now apply nth_store_set.
Qed.

(** C7, amended.  On one UserProfile instance whose identity has not been fetched
    yet, any two or more private-message sends performed one after the
    other trigger exactly one identity lookup, provided that lookup is
    answered with an identity (a payload other than None): the first send
    stores the answer in the instance and every later send reads it from
    there.  This holds whatever becomes of the sends themselves. *)
Theorem C7_identity_lookup_happens_once (u : User) (texts : list string)
    (st : State) (v : JSON) :
  has_field Sessdata (credential u) = true ->
  has_field BiliJct (credential u) = true ->
  (self_info u < length (heap st))%nat ->
  nth (self_info u) (heap st) JNull = JNull ->
  requester env (trace st) (identity_request env (credential u)) = Ok v ->
  v <> JNull ->
  (2 <= length texts)%nat ->
  identity_lookups env (issued (run_all (map (send_msg env u) texts)) st) = 1%nat
  /\ nth (self_info u) (heap (snd (run_all (map (send_msg env u) texts) st))) JNull
     = v.
Proof.
  intros Hs Hj Ha Hc Hv Hnn Hlen.
  apply sends_fetch_identity_once; try assumption.
  intros ->. simpl in Hlen. lia.
Qed.

End Properties.

(** ** The properties on a mocked Requester *)

Lemma C1_missing_claim_aborts_before_request_witness :
  run_op (mock_env sample_payload)
    (OpSendMsg (mkUser 100 token_only_credential 0) "hello") st1
  = (Err (MissingCredentialError Sessdata), st1)
  /\ requests (issued (run_op (mock_env sample_payload)
                         (OpSendMsg (mkUser 100 token_only_credential 0) "hello"))
                st1) = [].
Proof.
  apply (C1_missing_claim_aborts_before_request (mock_env sample_payload)
           (OpSendMsg (mkUser 100 token_only_credential 0) "hello") Sessdata st1).
  reflexivity.
Defined.

Lemma C2_channel_list_two_step_witness :
  let env := mock_env sample_payload in
  let u := mkUser 100 anonymous 0 in
  issued (get_channel_list env u) st1
  = [EvRequest (channel_list_request env u (JInt 1));
     EvSleep (1 # 2);
     EvRequest (channel_list_request env u (JInt 2))]
  /\ requests (issued (get_channel_list env u) st1)
     = [channel_list_request env u (JInt 1); channel_list_request env u (JInt 2)].
Proof.
  intros env u.
  pose proof (C2_channel_list_two_step env u st1 sample_payload
                (JObj [("page", JObj [("total", JInt 2)]);
                       ("seasons_list", JArr sample_channels);
                       ("series_list", JArr [])])
                (JObj [("total", JInt 2)]) 2
                eq_refl eq_refl eq_refl eq_refl) as H.
  split; [exact (proj1 H) | exact (proj1 (proj2 H))].
Defined.

(** A probe that reports no item is followed by a request for page size 1. *)
Example channel_list_empty_total :
  let env := mock_env empty_listing in
  let u := mkUser 100 anonymous 0 in
  issued (get_channel_list env u) st1
  = [EvRequest (channel_list_request env u (JInt 1));
     EvSleep (1 # 2);
     EvRequest (channel_list_request env u (JInt 1))].
Proof. reflexivity. Qed.

(** A probe that fails is the only call. *)
Example channel_list_probe_fails :
  get_channel_list offline_env (mkUser 100 anonymous 0) st1
  = (Err NetworkException,
     mkState [EvRequest (channel_list_request offline_env
                           (mkUser 100 anonymous 0) (JInt 1))] [JNull]).
Proof. reflexivity. Qed.

Lemma C3_unwrap_decodes_or_fails_witness :
  exists items',
    fst (get_dynamics (mock_env sample_payload) (mkUser 100 anonymous 0) 0 false st1)
    = Ok (JObj (dict_set "cards" (JArr items') sample_fields))
    /\ Forall2 (decoded (mock_env sample_payload)) sample_cards items'.
Proof.
  apply (proj1 (proj2 (C3_unwrap_decodes_or_fails (mock_env sample_payload)
                         (mkUser 100 anonymous 0) 0 false st1 sample_fields
                         eq_refl))
           sample_cards).
  - reflexivity.
  - repeat constructor.
Defined.

(** The decoded sample, written out. *)
Example dynamics_sample_decoded :
  fst (get_dynamics (mock_env sample_payload) (mkUser 100 anonymous 0) 0 false st1)
  = Ok (JObj (dict_set "cards"
                (JArr [JObj [("desc", JInt 5); ("card", JObj []);
                             ("extend_json", JArr [JInt 7])]])
                sample_fields)).
Proof. reflexivity. Qed.

(** C3 as stated fails: an item without "card" and "extend_json" does not
    pass through unmodified, the call raises KeyError. *)
Lemma C3_item_lacking_fields_counterexample :
  let result := fst (get_dynamics (mock_env bare_cards_payload)
                       (mkUser 100 anonymous 0) 0 false st1) in
  result = Err (KeyError "card") /\ result <> Ok bare_cards_payload.
Proof. split; [reflexivity | discriminate]. Qed.

Lemma C4_construction_requester_calls_witness :
  let env := mock_env sample_payload in
  let new := ChannelSeries_init env 100 SEASON 7 None in
  (requests (issued (new (JObj [("season_id", JInt 7)])) st0) = []
   /\ exists cs, fst (new (JObj [("season_id", JInt 7)]) st0) = Ok cs
                 /\ meta cs = JObj [("season_id", JInt 7)])
  /\ length (requests (issued (new JNull) st0)) = 2%nat
  /\ exists cs m, fst (new JNull st0) = Ok cs /\ meta cs = JObj m
                  /\ last_match "season_id" 7 sample_channels = Some m.
Proof.
  intros env new.
  pose proof (C4_construction_requester_calls env 100 SEASON 7 None st0) as [A B].
  split.
  - apply A. discriminate.
  - assert (F : fetches env (owner_at st0 100 None) st0
                  (list_key (ChannelSeriesType_value SEASON)) sample_channels).
    { exists sample_payload,
        (JObj [("page", JObj [("total", JInt 2)]);
               ("seasons_list", JArr sample_channels);
               ("series_list", JArr [])]),
        (JObj [("total", JInt 2)]), (JInt 2), sample_payload,
        (JObj [("page", JObj [("total", JInt 2)]);
               ("seasons_list", JArr sample_channels);
               ("series_list", JArr [])]).
      repeat split. }
    assert (W : Forall (fun c => well_formed_entry
                                   (id_key (ChannelSeriesType_value SEASON)) c = true)
                  sample_channels) by (repeat constructor).
    destruct (B sample_channels F W) as (B1 & B2 & _).
    split; [exact B1 | exact (B2 eq_refl)].
Defined.

(** C4 as stated fails: resolving a collection from the owner's list takes
    two Requester calls, not one. *)
Lemma C4_fetch_takes_two_calls_counterexample :
  let new := ChannelSeries_init (mock_env sample_payload) 100 SEASON 7 None JNull in
  is_ok (fst (new st0)) = true
  /\ existsb (entry_matches "season_id" 7) sample_channels = true
  /\ length (requests (issued new st0)) = 2%nat
  /\ length (requests (issued new st0)) <> 1%nat.
Proof. repeat split. discriminate. Qed.

Lemma C5_metadata_after_construction_witness :
  let cs := mkChannelSeries 100 1 7 (mkUser 100 anonymous 0) None
              (JObj [("season_id", JInt 7); ("name", JStr "first")]) in
  meta cs <> JNull
  /\ (JNull = JNull -> nonempty_mapping (meta cs) = true)
  /\ (JNull <> JNull -> meta cs = JNull)
  /\ (nonempty_mapping JNull = true -> nonempty_mapping (meta cs) = true).
Proof.
  intros cs.
  apply (C5_metadata_after_construction (mock_env sample_payload)
           100 SEASON 7 None JNull st0 cs).
  reflexivity.
Defined.

(** C5 as stated fails: an empty mapping supplied by the caller is kept,
    and the construction succeeds with empty metadata. *)
Lemma C5_empty_metadata_counterexample :
  exists cs,
    fst (ChannelSeries_init (mock_env sample_payload) 100 SEASON 7 None (JObj []) st0)
    = Ok cs
    /\ meta cs = JObj []
    /\ nonempty_mapping (meta cs) = false.
Proof. eexists. repeat split. Qed.

Lemma C6_up_stat_requires_write_token_only_witness :
  let env := mock_env sample_payload in
  get_up_stat env (mkUser 100 anonymous 0) st1
  = (Err (MissingCredentialError BiliJct), st1)
  /\ get_up_stat env (mkUser 100 token_only_credential 0) st1
     = (Ok sample_payload,
        mkState [EvRequest (upstat_request env (mkUser 100 token_only_credential 0))]
                [JNull]).
Proof.
  intros env. split.
  - apply (proj1 (C6_up_stat_requires_write_token_only env
                    (mkUser 100 anonymous 0) st1)).
    reflexivity.
  - apply (proj2 (C6_up_stat_requires_write_token_only env
                    (mkUser 100 token_only_credential 0) st1)).
    reflexivity.
Defined.

Lemma C7_identity_lookup_happens_once_witness :
  let env := mock_env sample_payload in
  let u := mkUser 100 full_credential 0 in
  identity_lookups env (issued (run_all (map (send_msg env u) ["a"; "b"; "c"])) st1)
  = 1%nat
  /\ nth (self_info u)
         (heap (snd (run_all (map (send_msg env u) ["a"; "b"; "c"]) st1))) JNull
     = sample_payload.
Proof.
  intros env u.
  apply (C7_identity_lookup_happens_once env u ["a"; "b"; "c"] st1 sample_payload);
    try reflexivity.
  - simpl. lia.
  - discriminate.
  - simpl. lia.
Defined.

(** Three sends on the mocked Requester: one lookup, three POSTs. *)
Example three_sends_trace :
  let env := mock_env sample_payload in
  let u := mkUser 100 full_credential 0 in
  map req_url (requests (issued (run_all (map (send_msg env u) ["a"; "b"; "c"])) st1))
  = [API env "info" "my_info"; API env "operate" "send_msg";
     API env "operate" "send_msg"; API env "operate" "send_msg"].
Proof. reflexivity. Qed.

(** A lookup that fails caches nothing: the next send asks again. *)
Example failed_lookup_is_repeated :
  let u := mkUser 100 full_credential 0 in
  identity_lookups offline_env
    (issued (run_all (map (send_msg offline_env u) ["a"; "b"])) st1) = 2%nat.
Proof. reflexivity. Qed.

(** C7 as stated fails: two sends on one instance, both needing the
    identity, make two identity lookups when the Requester fails on the
    lookup, and also when it answers the lookup with None; in neither case
    is anything cached. *)
Lemma C7_lookup_repeated_counterexample :
  let u := mkUser 100 full_credential 0 in
  let offline := run_all (map (send_msg offline_env u) ["a"; "b"]) in
  let nothing := run_all (map (send_msg (mock_env JNull) u) ["a"; "b"]) in
  identity_lookups offline_env (issued offline st1) = 2%nat
  /\ identity_lookups offline_env (issued offline st1) <> 1%nat
  /\ nth (self_info u) (heap (snd (offline st1))) JNull = JNull
  /\ identity_lookups (mock_env JNull) (issued nothing st1) = 2%nat
  /\ identity_lookups (mock_env JNull) (issued nothing st1) <> 1%nat
  /\ nth (self_info u) (heap (snd (nothing st1))) JNull = JNull.
Proof. repeat split; discriminate. Qed.

Lemma C8_per_endpoint_serialization_witness :
  let env := mock_env sample_payload in
  let u := mkUser 100 full_credential 0 in
  map (data_of "act") (issued (modify_relation env u BLOCK) st1) = [Some (JInt 5)]
  /\ map (param_of "need_top") (issued (get_dynamics env u 0 true) st1)
     = [Some (JInt 1)]
  /\ map (param_of "order") (issued (get_followers env u 1 false) st1)
     = [Some (JStr "asc")].
Proof.
  intros env u.
  pose proof (C8_per_endpoint_serialization env u st1)
    as (_ & _ & _ & _ & _ & _ & R & D & _ & F & _).
  split; [|split].
  - apply (R BLOCK); reflexivity.
  - apply (D 0 true).
  - apply (F 1 false).
Defined.

Lemma C9_list_videos_dispatches_on_kind_witness :
  let env := mock_env sample_payload in
  let u := mkUser 100 anonymous 0 in
  issued (ChannelSeries_get_videos env
            (mkChannelSeries 100 1 7 u None (JObj [("season_id", JInt 7)]))
            ChannelOrder_CHANGE 1 100) st1
  = [EvRequest (season_request env u 7 ChannelOrder_CHANGE 1 100)]
  /\ issued (ChannelSeries_get_videos env
               (mkChannelSeries 100 0 8 u None (JObj [("series_id", JInt 8)]))
               ChannelOrder_CHANGE 1 100) st1
     = [EvRequest (series_request env u 8 1 100)].
Proof.
  intros env u. split.
  - apply (proj1 (C9_list_videos_dispatches_on_kind env
                    (mkChannelSeries 100 1 7 u None (JObj [("season_id", JInt 7)]))
                    ChannelOrder_CHANGE 1 100 st1)).
    reflexivity.
  - apply (proj2 (C9_list_videos_dispatches_on_kind env
                    (mkChannelSeries 100 0 8 u None (JObj [("series_id", JInt 8)]))
                    ChannelOrder_CHANGE 1 100 st1)).
    reflexivity.
Defined.

(** ** Further properties of the module *)

Section MoreProperties.

Variable env : Env.

(** *** Operations whose checks pass *)

Lemma all_present_session cr :
  first_missing (required SESSION_REQUIRED) cr = None ->
  has_field Sessdata cr = true.
Proof.
  unfold first_missing; simpl.
  destruct (has_field Sessdata cr); [reflexivity | discriminate].
Qed.

Lemma all_present_session_and_token cr :
  first_missing (required SESSION_AND_WRITE_TOKEN_REQUIRED) cr = None ->
  has_field Sessdata cr = true /\ has_field BiliJct cr = true.
Proof.
  unfold first_missing; simpl.
  destruct (has_field Sessdata cr); simpl; [|discriminate].
  destruct (has_field BiliJct cr); simpl; [now split | discriminate].
Qed.

(** X1.  The credential checks are the only precondition of an operation.
    When no required claim is missing, every operation other than
    [send_msg] and [get_self_coins] calls the Requester exactly once, hands
    it the caller's credential, and returns or raises whatever the
    Requester answers; nothing else is added to the trace and the store is
    untouched.  Reads go out as GET without a body, writes as POST without
    query parameters. *)
Theorem X1_checks_passed_one_request (op : Operation) (st : State) :
  first_missing (required (classify op)) (op_credential op) = None ->
  passes_through op = true ->
  exists r,
    run_op env op st
    = (requester env (trace st) r,
       mkState (trace st ++ [EvRequest r]) (heap st))
    /\ req_credential r = Some (op_credential op)
    /\ req_method r = op_method op
    /\ (op_method op = GET -> req_data r = None)
    /\ (op_method op = POST -> req_params r = None).
Proof.
  intros H P.
  destruct op as [u|u|cr|pn ps [cr|]|[cr|]|u r|u t|n cr|g cr|g n cr|us gs cr];
    cbn [classify op_credential] in H; try discriminate P;
    cbn [run_op op_credential op_method].
  1-2: eexists; split; [apply request_run|]; repeat split; discriminate.
  1-3: apply all_present_session in H;
       unfold get_self_info, get_self_history, raise_for_no_sessdata;
       rewrite guard_passes by assumption;
       eexists; split; [apply request_run|]; repeat split; discriminate.
  all: apply all_present_session_and_token in H as [Hs Hj];
       unfold modify_relation, create_subscribe_group, delete_subscribe_group,
         rename_subscribe_group, set_subscribe_group,
         raise_for_no_sessdata, raise_for_no_bili_jct;
       rewrite !guard_passes by assumption;
       eexists; split; [apply request_run|]; repeat split; discriminate.
Qed.

(** *** get_self_history and get_self_coins *)

(** X2.  [get_self_history] reaches the Requester exactly when it is given
    a credential that holds the session claim.  Then it issues the one GET
    of the history endpoint with [pn] and [ps] and returns the answer.
    Called without a credential, or with one lacking the claim, it raises
    MissingCredentialError for the session claim and calls nothing. *)
Theorem X2_history_needs_a_session (page_num per_page_item : Z)
    (cr : option Credential) (st : State) :
  let run := get_self_history env page_num per_page_item cr in
  (forall c,
      cr = Some c -> has_field Sessdata c = true ->
      run st = (requester env (trace st)
                  (history_request env page_num per_page_item c),
                mkState (trace st
                           ++ [EvRequest (history_request env page_num
                                            per_page_item c)])
                        (heap st)))
  /\ ((cr = None \/ exists c, cr = Some c /\ has_field Sessdata c = false) ->
      run st = (Err (MissingCredentialError Sessdata), st)).
Proof.
  intros run. subst run. split.
  - intros c -> Hs. unfold get_self_history, raise_for_no_sessdata.
    rewrite guard_passes by assumption. apply request_run.
  - intros [->|(c & -> & Hs)]; unfold get_self_history, raise_for_no_sessdata;
      now apply guard_fails.
Qed.

Lemma get_self_coins_run cr st :
  has_field Sessdata cr = true ->
  has_field DedeUserID cr = true ->
  get_self_coins env (Some cr) st
  = (rbind (requester env (trace st) (coins_request env cr))
       (fun r => py_getitem r "money"),
     mkState (trace st ++ [EvRequest (coins_request env cr)]) (heap st)).
Proof.
  intros Hs Hd.
  unfold get_self_coins, raise_for_no_sessdata, raise_for_no_dedeuserid.
  rewrite !guard_passes by assumption.
  unfold bind. rewrite request_run. unfold coins_request, lift.
  now destruct (requester env _ _).
Qed.

(** X3.  [get_self_coins] checks the session claim, then the user-id claim,
    and only then calls the Requester, once.  A credential with a session
    but no user id raises MissingCredentialError for the user id and calls
    nothing.  With both claims the result is the ["money"] field of the
    answer; an answer that is a mapping without that field raises KeyError
    after the call, and an exception of the Requester is passed on. *)
Theorem X3_coins_checks_then_money (cr : Credential) (st : State) :
  has_field Sessdata cr = true ->
  (has_field DedeUserID cr = false ->
     get_self_coins env (Some cr) st
     = (Err (MissingCredentialError DedeUserID), st))
  /\ (has_field DedeUserID cr = true ->
      let after := mkState (trace st ++ [EvRequest (coins_request env cr)])
                     (heap st) in
      (forall d money,
          requester env (trace st) (coins_request env cr) = Ok (JObj d) ->
          dict_get "money" d = Some money ->
          get_self_coins env (Some cr) st = (Ok money, after))
      /\ (forall d,
            requester env (trace st) (coins_request env cr) = Ok (JObj d) ->
            dict_get "money" d = None ->
            get_self_coins env (Some cr) st = (Err (KeyError "money"), after))
      /\ (forall e,
            requester env (trace st) (coins_request env cr) = Err e ->
            get_self_coins env (Some cr) st = (Err e, after))).
Proof.
  intros Hs. split.
  - intros Hd. unfold get_self_coins, raise_for_no_sessdata, raise_for_no_dedeuserid.
    rewrite guard_passes by assumption. now apply guard_fails.
  - intros Hd after. subst after. rewrite (get_self_coins_run cr st Hs Hd).
    repeat split.
    + intros d money -> Hm. simpl. now rewrite Hm.
    + intros d -> Hm. simpl. now rewrite Hm.
    + intros e ->. reflexivity.
Qed.

(** *** get_channel_list off the happy path *)

Lemma get_channel_list_probe_error u st e :
  requester env (trace st) (channel_list_request env u (JInt 1)) = Err e ->
  get_channel_list env u st
  = (Err e,
     mkState (trace st ++ [EvRequest (channel_list_request env u (JInt 1))])
             (heap st)).
Proof.
  intros H. unfold get_channel_list, bind. rewrite request_run.
  unfold channel_list_request in H. now rewrite H.
Qed.

Lemma get_channel_list_envelope_error u st res e :
  requester env (trace st) (channel_list_request env u (JInt 1)) = Ok res ->
  rbind (py_getitem res "items_lists")
    (fun il => rbind (py_getitem il "page") (fun pg => py_getitem pg "total"))
  = Err e ->
  get_channel_list env u st
  = (Err e,
     mkState (trace st ++ [EvRequest (channel_list_request env u (JInt 1))])
             (heap st)).
Proof.
  intros H E. unfold get_channel_list, bind. rewrite request_run.
  unfold channel_list_request in H. rewrite H. unfold lift. now rewrite E.
Qed.

(** X4.  [get_channel_list] stops at the first thing that goes wrong with
    the probe.  If the Requester raises on the probe, or the answer has no
    ["items_lists"], no ["page"] inside it or no ["total"] inside that, the
    exception (the Requester's, or KeyError naming the absent key) is the
    result, the probe is the only event of the trace: there is no pause and
    no second call. *)
Theorem X4_channel_list_stops_at_probe (u : User) (st : State) :
  let probe := channel_list_request env u (JInt 1) in
  let stopped := mkState (trace st ++ [EvRequest probe]) (heap st) in
  (forall e,
      requester env (trace st) probe = Err e ->
      get_channel_list env u st = (Err e, stopped))
  /\ (forall d,
        requester env (trace st) probe = Ok (JObj d) ->
        dict_get "items_lists" d = None ->
        get_channel_list env u st = (Err (KeyError "items_lists"), stopped))
  /\ (forall d il,
        requester env (trace st) probe = Ok (JObj d) ->
        dict_get "items_lists" d = Some (JObj il) ->
        dict_get "page" il = None ->
        get_channel_list env u st = (Err (KeyError "page"), stopped))
  /\ (forall d il pg,
        requester env (trace st) probe = Ok (JObj d) ->
        dict_get "items_lists" d = Some (JObj il) ->
        dict_get "page" il = Some (JObj pg) ->
        dict_get "total" pg = None ->
        get_channel_list env u st = (Err (KeyError "total"), stopped)).
Proof.
  intros probe stopped. subst probe stopped. repeat split.
  - intros e H. now apply get_channel_list_probe_error.
  - intros d H H1. apply (get_channel_list_envelope_error u st (JObj d)); [exact H|].
    simpl. now rewrite H1.
  - intros d il H H1 H2.
    apply (get_channel_list_envelope_error u st (JObj d)); [exact H|].
    simpl. rewrite H1. simpl. now rewrite H2.
  - intros d il pg H H1 H2 H3.
    apply (get_channel_list_envelope_error u st (JObj d)); [exact H|].
    simpl. rewrite H1. simpl. rewrite H2. simpl. now rewrite H3.
Qed.

(** X5.  Whatever value the probe reports as total (an int, a bool, a str,
    anything), the page size of the second request never compares equal to
    0: a total equal to 0 ([0] or [False]) is replaced by the int 1, and
    every other total is sent as it is, negative ints included. *)
Theorem X5_second_page_size_never_zero (u : User) (st : State)
    (res il pg total : JSON) :
  requester env (trace st) (channel_list_request env u (JInt 1)) = Ok res ->
  py_getitem res "items_lists" = Ok il ->
  py_getitem il "page" = Ok pg ->
  py_getitem pg "total" = Ok total ->
  exists size,
    issued (get_channel_list env u) st
    = [EvRequest (channel_list_request env u (JInt 1));
       EvSleep (1 # 2);
       EvRequest (channel_list_request env u size)]
    /\ py_eq_int size 0 = false
    /\ (py_eq_int total 0 = true -> size = JInt 1)
    /\ (py_eq_int total 0 = false -> size = total).
Proof.
  intros Hres Hil Hpg Htot.
  pose proof (get_channel_list_run env u st res il pg total Hres Hil Hpg Htot) as E.
  cbn zeta in E.
  exists (if py_eq_int total 0 then JInt 1 else total).
  split; [|destruct (py_eq_int total 0) eqn:Z0; repeat split; congruence].
  apply issued_app. rewrite E. cbn [snd trace]. now rewrite <- app_assoc.
Qed.

(** *** Resolving a collection from the owner's list *)

Lemma scan_channels_app is_new id_ pre rest found :
  scan_channels is_new id_ (pre ++ rest) found
  = rbind (scan_channels is_new id_ pre found)
      (fun found' => scan_channels is_new id_ rest found').
Proof.
  revert found. induction pre as [|c pre IH]; intros found; [reflexivity|].
  cbn [app scan_channels].
  destruct (py_getitem c "meta") as [m|e]; [|reflexivity]. cbn [rbind].
  destruct (py_getitem m _) as [t|e]; [|reflexivity]. cbn [rbind].
  apply IH.
Qed.

Lemma last_match_app key id_ pre rest :
  last_match key id_ (pre ++ rest)
  = match last_match key id_ rest with
    | Some m => Some m
    | None => last_match key id_ pre
    end.
Proof.
  induction pre as [|c pre IH]; cbn [app last_match].
  - now destruct (last_match key id_ rest).
  - rewrite IH. now destruct (last_match key id_ rest).
Qed.

Lemma entry_meta_well_formed key entry m t :
  entry_meta key entry = Some (m, t) -> well_formed_entry key entry = true.
Proof. unfold well_formed_entry. now intros ->. Qed.

(** X6.  The scan of the constructor has no [break]: when several entries
    of the owner's list carry the collection id, the collection resolves to
    the metadata of the last of them.  Stated for a well-formed list
    [pre ++ entry :: post] in which [entry] carries the id and nothing in
    [post] does, whatever [pre] holds. *)
Theorem X6_last_matching_entry_wins (user_id : Z) (type_ : ChannelSeriesType)
    (id_ : Z) (cr : option Credential) (st : State)
    (pre post : list JSON) (entry : JSON) (m : Dict) (t : JSON) :
  let is_new := ChannelSeriesType_value type_ in
  fetches env (owner_at st user_id cr) st (list_key is_new)
    (pre ++ entry :: post) ->
  Forall (fun c => well_formed_entry (id_key is_new) c = true) pre ->
  Forall (fun c => well_formed_entry (id_key is_new) c = true) post ->
  entry_meta (id_key is_new) entry = Some (m, t) ->
  py_eq_int t id_ = true ->
  existsb (entry_matches (id_key is_new) id_) post = false ->
  exists cs,
    fst (ChannelSeries_init env user_id type_ id_ cr JNull st) = Ok cs
    /\ meta cs = JObj m.
Proof.
  intros is_new Hf Hpre Hpost He Ht Hno.
  destruct (ChannelSeries_init_fetched env user_id type_ id_ cr st _ Hf)
    as (second & E).
  fold is_new in E.
  assert (Hwf : Forall (fun c => well_formed_entry (id_key is_new) c = true)
                  (pre ++ entry :: post)).
  { apply Forall_app. split; [exact Hpre|]. constructor; [|exact Hpost].
    now apply (entry_meta_well_formed _ _ m t). }
  rewrite (scan_channels_spec _ _ _ _ Hwf) in E.
  rewrite last_match_exists in Hno.
  rewrite last_match_app in E. cbn [last_match] in E.
  destruct (last_match (id_key is_new) id_ post); [discriminate Hno|].
  rewrite He, Ht in E. cbn [is_None] in E.
  eexists. rewrite E. split; reflexivity.
Qed.

(** X7.  The scan visits every entry, also after a match: an entry without
    ["meta"] makes the construction fail with KeyError even when an earlier
    entry carries the collection id.  The two requests of the listing have
    been made by then. *)
Theorem X7_entry_without_meta_fails_construction (user_id : Z)
    (type_ : ChannelSeriesType) (id_ : Z) (cr : option Credential) (st : State)
    (pre post : list JSON) (d : Dict) :
  let is_new := ChannelSeriesType_value type_ in
  let new := ChannelSeries_init env user_id type_ id_ cr JNull in
  fetches env (owner_at st user_id cr) st (list_key is_new)
    (pre ++ JObj d :: post) ->
  Forall (fun c => well_formed_entry (id_key is_new) c = true) pre ->
  dict_get "meta" d = None ->
  fst (new st) = Err (KeyError "meta")
  /\ length (requests (issued new st)) = 2%nat.
Proof.
  intros is_new new Hf Hpre Hd. subst new.
  destruct (ChannelSeries_init_fetched env user_id type_ id_ cr st _ Hf)
    as (second & E).
  fold is_new in E.
  rewrite scan_channels_app, (scan_channels_spec _ _ _ _ Hpre) in E.
  cbn [rbind scan_channels py_getitem] in E. rewrite Hd in E. cbn [rbind] in E.
  split.
  - now rewrite E.
  - erewrite issued_app; [|rewrite E; reflexivity]. reflexivity.
Qed.

(** X8.  Constructing a collection with metadata and then listing its
    videos costs exactly one Requester call in all.  The call goes to the
    endpoint of the collection's kind, asks for the owner id and the
    collection id the constructor was given, and carries the credential
    given to the constructor, the anonymous credential when none was. *)
Theorem X8_construct_then_list_videos (user_id : Z) (type_ : ChannelSeriesType)
    (id_ : Z) (cr : option Credential) (supplied : JSON) (sort : ChannelOrder)
    (pn ps : Z) (st : State) :
  supplied <> JNull ->
  let run := bind (ChannelSeries_init env user_id type_ id_ cr supplied)
               (fun cs => ChannelSeries_get_videos env cs sort pn ps) in
  let sent := requests (issued run st) in
  sent = [match type_ with
          | SEASON => season_request env (owner_at st user_id cr) id_ sort pn ps
          | SERIES => series_request env (owner_at st user_id cr) id_ pn ps
          end]
  /\ map (fun r => option_map (dict_get "mid") (req_params r)) sent
     = [Some (Some (JInt user_id))]
  /\ map req_credential sent
     = [Some (match cr with Some c => c | None => anonymous end)].
Proof.
  intros Hs run sent.
  assert (E : sent = [match type_ with
                      | SEASON => season_request env (owner_at st user_id cr)
                                    id_ sort pn ps
                      | SERIES => series_request env (owner_at st user_id cr)
                                    id_ pn ps
                      end]).
  { subst sent run.
    rewrite (issued_app _ st
               [EvRequest
                  match type_ with
                  | SEASON => season_request env (owner_at st user_id cr)
                                id_ sort pn ps
                  | SERIES => series_request env (owner_at st user_id cr)
                                id_ pn ps
                  end]).
    - reflexivity.
    - unfold bind.
      rewrite (ChannelSeries_init_supplied env _ _ _ _ _ _ Hs).
      unfold ChannelSeries_get_videos.
      destruct type_; reflexivity. }
  rewrite E. now destruct type_.
Qed.

(** *** send_msg and the identity it needs *)

Lemma nth_store_set_other a b v h :
  a <> b -> nth b (store_set a v h) JNull = nth b h JNull.
Proof.
  revert a b. induction h as [|x h IH]; intros [|a] [|b] N; simpl;
    try reflexivity; try congruence.
  apply IH. congruence.
Qed.

Lemma send_msg_unfold u text st :
  has_field Sessdata (credential u) = true ->
  has_field BiliJct (credential u) = true ->
  send_msg env u text st
  = bind (User__get_self_info env u)
      (fun self_info =>
         bind (lift (py_getitem self_info "mid"))
           (fun sender_uid =>
              bind (int_time env)
                (fun timestamp =>
                   request env POST (API env "operate" "send_msg") None
                     (Some
                        [("msg[sender_uid]", sender_uid);
                         ("msg[receiver_id]", JInt (uid u));
                         ("msg[receiver_type]", JInt 1);
                         ("msg[msg_type]", JInt 1);
                         ("msg[msg_status]", JInt 0);
                         ("msg[content]",
                           JStr (dumps env (JObj [("content", JStr text)])));
                         ("msg[dev_id]",
                           JStr "B9A37BF3-AA9D-4076-A4D3-366AC8C4C5DB");
                         ("msg[new_face_version]", JStr "0");
                         ("msg[timestamp]", JInt timestamp);
                         ("from_filework", JInt 0);
                         ("build", JInt 0);
                         ("mobi_app", JStr "web")])
                     (Some (credential u))))) st.
Proof.
  intros Hs Hj. unfold send_msg, raise_for_no_sessdata, raise_for_no_bili_jct.
  now rewrite !guard_passes by assumption.
Qed.

(** X9.  The first send on an instance makes two calls: the identity
    lookup, then the POST of the message.  The POST names as sender the
    ["mid"] of the identity just fetched and as receiver the user the
    instance stands for, carries the text wrapped by [json.dumps] and the
    clock as read after the lookup, and its answer is the result of the
    send. *)
Theorem X9_first_send_looks_up_then_posts (u : User) (text : string)
    (st : State) (v sender : JSON) :
  has_field Sessdata (credential u) = true ->
  has_field BiliJct (credential u) = true ->
  (self_info u < length (heap st))%nat ->
  nth (self_info u) (heap st) JNull = JNull ->
  requester env (trace st) (identity_request env (credential u)) = Ok v ->
  py_getitem v "mid" = Ok sender ->
  let lookup := EvRequest (identity_request env (credential u)) in
  exists r,
    send_msg env u text st
    = (requester env (trace st ++ [lookup]) r,
       mkState (trace st ++ [lookup; EvRequest r])
               (store_set (self_info u) v (heap st)))
    /\ req_method r = POST
    /\ req_url r = API env "operate" "send_msg"
    /\ req_params r = None
    /\ req_credential r = Some (credential u)
    /\ data_of "msg[sender_uid]" (EvRequest r) = Some sender
    /\ data_of "msg[receiver_id]" (EvRequest r) = Some (JInt (uid u))
    /\ data_of "msg[content]" (EvRequest r)
       = Some (JStr (dumps env (JObj [("content", JStr text)])))
    /\ data_of "msg[timestamp]" (EvRequest r)
       = Some (JInt (time_time env (trace st ++ [lookup]))).
Proof.
  intros Hs Hj Ha Hc Hv Hm lookup.
  eexists. split.
  - rewrite send_msg_unfold by assumption. unfold bind at 1.
    rewrite (get_self_info_fetches env u st v) by assumption.
    unfold bind, lift. rewrite Hm. unfold int_time. rewrite request_run.
    cbn [trace heap]. rewrite <- app_assoc. reflexivity.
  - repeat split.
Qed.

(** X10.  An identity without ["mid"] is cached all the same.  The first
    send fetches it, stores it and fails on the missing field before any
    message is posted; every later send on the instance fails the same way
    without a single Requester call. *)
Theorem X10_identity_without_mid_is_cached (u : User) (text : string)
    (st : State) (v : JSON) (e : Exn) :
  has_field Sessdata (credential u) = true ->
  has_field BiliJct (credential u) = true ->
  (self_info u < length (heap st))%nat ->
  nth (self_info u) (heap st) JNull = JNull ->
  requester env (trace st) (identity_request env (credential u)) = Ok v ->
  v <> JNull ->
  py_getitem v "mid" = Err e ->
  let st' := mkState (trace st ++ [EvRequest (identity_request env (credential u))])
               (store_set (self_info u) v (heap st)) in
  send_msg env u text st = (Err e, st')
  /\ forall text', send_msg env u text' st' = (Err e, st').
Proof.
  intros Hs Hj Ha Hc Hv Hn Hm st'. split.
  - rewrite send_msg_unfold by assumption. unfold bind at 1.
    rewrite (get_self_info_fetches env u st v) by assumption.
    unfold bind, lift. now rewrite Hm.
  - intros text'. rewrite send_msg_unfold by assumption. unfold bind at 1.
    assert (Hc' : nth (self_info u) (heap st') JNull = v)
      by (subst st'; cbn [heap]; now apply nth_store_set).
    rewrite get_self_info_cached by (rewrite Hc'; exact Hn).
    rewrite Hc'. unfold bind, lift. now rewrite Hm.
Qed.

(** One send while the lookup fails or answers None: the send fails, the
    lookup is its only event, and the instance still has nothing cached. *)
Lemma send_msg_lookup_fails u text st :
  has_field Sessdata (credential u) = true ->
  has_field BiliJct (credential u) = true ->
  (self_info u < length (heap st))%nat ->
  nth (self_info u) (heap st) JNull = JNull ->
  match requester env (trace st) (identity_request env (credential u)) with
  | Ok v => v = JNull
  | Err _ => True
  end ->
  exists e h,
    send_msg env u text st
    = (Err e,
       mkState (trace st ++ [EvRequest (identity_request env (credential u))]) h)
    /\ length h = length (heap st)
    /\ nth (self_info u) h JNull = JNull.
Proof.
  intros Hs Hj Ha Hc Hr.
  rewrite send_msg_unfold by assumption. unfold bind at 1.
  destruct (requester env (trace st) (identity_request env (credential u)))
    as [v|e] eqn:Hv.
  - subst v. rewrite (get_self_info_fetches env u st JNull) by assumption.
    exists TypeError, (store_set (self_info u) JNull (heap st)).
    repeat split.
    + apply length_store_set.
    + now apply nth_store_set.
  - exists e, (heap st). repeat split; [|assumption].
    unfold User__get_self_info. unfold bind at 1. unfold read_cell at 1.
    rewrite Hc. cbn [is_None negb]. unfold bind at 1.
    unfold get_self_info, raise_for_no_sessdata.
    rewrite guard_passes by assumption. rewrite request_run.
    unfold identity_request in Hv. now rewrite Hv.
Qed.

Lemma run_all_cons_fst {A} (op : M A) ops st :
  fst (run_all (op :: ops) st)
  = fst (op st) :: fst (run_all ops (snd (op st))).
Proof.
  simpl. destruct (op st) as [r st1]. simpl.
  now destruct (run_all ops st1).
Qed.

Lemma sends_lookup_fails u texts st :
  has_field Sessdata (credential u) = true ->
  has_field BiliJct (credential u) = true ->
  (forall tr, match requester env tr (identity_request env (credential u)) with
              | Ok v => v = JNull
              | Err _ => True
              end) ->
  (self_info u < length (heap st))%nat ->
  nth (self_info u) (heap st) JNull = JNull ->
  let run := run_all (map (send_msg env u) texts) in
  Forall (fun r => is_ok r = false) (fst (run st))
  /\ exists h,
      snd (run st)
      = mkState (trace st
                   ++ repeat (EvRequest (identity_request env (credential u)))
                        (length texts)) h
      /\ length h = length (heap st)
      /\ nth (self_info u) h JNull = JNull.
Proof.
  intros Hs Hj Hr. revert st.
  induction texts as [|t texts IH]; intros st Ha Hc run; subst run.
  - split; [constructor|]. exists (heap st). simpl. rewrite app_nil_r.
    now destruct st.
  - destruct (send_msg_lookup_fails u t st Hs Hj Ha Hc (Hr (trace st)))
      as (e & h & E & Hl & Hn).
    cbn [map]. rewrite run_all_cons, run_all_cons_fst, E. cbn [fst snd].
    destruct (IH (mkState (trace st ++ [EvRequest (identity_request env
                                                     (credential u))]) h))
      as (F & h' & E' & Hl' & Hn').
    { cbn [heap]. now rewrite Hl. }
    { exact Hn. }
    cbn [trace heap] in E', Hl'.
    split; [constructor; [reflexivity | exact F]|].
    exists h'. rewrite E'. cbn [length repeat].
    rewrite <- app_assoc. cbn [app].
    split; [reflexivity|]. split; [congruence | exact Hn'].
Qed.

Lemma requests_repeat r n :
  requests (repeat (EvRequest r) n) = repeat r n.
Proof. induction n; simpl; congruence. Qed.

Lemma lookups_repeat cr n :
  length (filter (is_identity_lookup env) (repeat (identity_request env cr) n))
  = n.
Proof.
  induction n as [|n IH]; [reflexivity|].
  cbn [repeat filter]. rewrite identity_request_is_lookup. simpl. congruence.
Qed.

(** X11.  Only an identity is cached, never a failure.  While the identity
    lookup raises or answers None, every send on the instance fails, posts
    nothing and repeats the lookup: [n] sends make exactly [n] Requester
    calls, all of them lookups, and the instance ends with nothing
    cached. *)
Theorem X11_failed_lookups_are_repeated (u : User) (texts : list string)
    (st : State) :
  has_field Sessdata (credential u) = true ->
  has_field BiliJct (credential u) = true ->
  (forall tr, match requester env tr (identity_request env (credential u)) with
              | Ok v => v = JNull
              | Err _ => True
              end) ->
  (self_info u < length (heap st))%nat ->
  nth (self_info u) (heap st) JNull = JNull ->
  let run := run_all (map (send_msg env u) texts) in
  Forall (fun r => is_ok r = false) (fst (run st))
  /\ requests (issued run st)
     = repeat (identity_request env (credential u)) (length texts)
  /\ identity_lookups env (issued run st) = length texts
  /\ nth (self_info u) (heap (snd (run st))) JNull = JNull.
Proof.
  intros Hs Hj Hr Ha Hc run.
  destruct (sends_lookup_fails u texts st Hs Hj Hr Ha Hc) as (F & h & E & _ & Hn).
  fold run in F, E.
  assert (I : issued run st
              = repeat (EvRequest (identity_request env (credential u)))
                  (length texts))
    by (apply issued_app; now rewrite E).
  split; [exact F|]. split; [now rewrite I, requests_repeat|]. split.
  - unfold identity_lookups. rewrite I, requests_repeat. apply lookups_repeat.
  - now rewrite E.
Qed.

(** X12.  The identity cache belongs to the instance.  Two instances, even
    of the same user and with the same credential, each look the identity
    up on their first send: a send on one followed by a send on the other
    makes two lookups. *)
Theorem X12_cache_is_per_instance (u1 u2 : User) (t1 t2 : string) (st : State) :
  has_field Sessdata (credential u1) = true ->
  has_field BiliJct (credential u1) = true ->
  has_field Sessdata (credential u2) = true ->
  has_field BiliJct (credential u2) = true ->
  (forall tr cr, exists v,
      requester env tr (identity_request env cr) = Ok v /\ v <> JNull) ->
  self_info u1 <> self_info u2 ->
  (self_info u1 < length (heap st))%nat ->
  (self_info u2 < length (heap st))%nat ->
  nth (self_info u1) (heap st) JNull = JNull ->
  nth (self_info u2) (heap st) JNull = JNull ->
  identity_lookups env
    (issued (run_all [send_msg env u1 t1; send_msg env u2 t2]) st) = 2%nat.
Proof.
  intros Hs1 Hj1 Hs2 Hj2 Hans Hne Ha1 Ha2 Hc1 Hc2.
  destruct (Hans (trace st) (credential u1)) as (v1 & Hv1 & _).
  destruct (send_msg_first env u1 t1 st v1 Hs1 Hj1 Ha1 Hc1 Hv1) as (l1 & E1 & F1).
  set (s1 := snd (send_msg env u1 t1 st)) in *.
  destruct (Hans (trace s1) (credential u2)) as (v2 & Hv2 & _).
  assert (Ha2' : (self_info u2 < length (heap s1))%nat)
    by (rewrite E1; cbn [heap]; now rewrite length_store_set).
  assert (Hc2' : nth (self_info u2) (heap s1) JNull = JNull)
    by (rewrite E1; cbn [heap]; now rewrite nth_store_set_other).
  destruct (send_msg_first env u2 t2 s1 v2 Hs2 Hj2 Ha2' Hc2' Hv2) as (l2 & E2 & F2).
  erewrite issued_app.
  2:{ rewrite run_all_cons. fold s1. rewrite run_all_cons.
      cbn [run_all snd]. rewrite E2, E1. cbn [trace].
      rewrite <- app_assoc. reflexivity. }
  unfold identity_lookups.
  cbn [app requests flat_map filter].
  rewrite identity_request_is_lookup.
  fold (requests (l1 ++ EvRequest (identity_request env (credential u2)) :: l2)).
  rewrite requests_app, filter_app, F1.
  cbn [requests flat_map app filter]. rewrite identity_request_is_lookup.
  fold (requests l2). now rewrite F2.
Qed.

(** *** The dynamics feed beyond its cards *)

Lemma dict_set_same k v d : dict_get k d = Some v -> dict_set k v d = d.
Proof.
  induction d as [|[k' v'] d IH]; simpl; [discriminate|].
  destruct (String.eqb k' k); [now intros [= ->] | intros H; now rewrite IH].
Qed.

Lemma unwrap_dynamics_shape d r :
  unwrap_dynamics env (JObj d) = Ok r ->
  r = JObj d
  \/ exists items', dict_has "cards" d = true
                    /\ r = JObj (dict_set "cards" (JArr items') d).
Proof.
  unfold unwrap_dynamics. cbn [py_contains rbind].
  destruct (dict_has "cards" d) eqn:Hc; [|intros [= <-]; now left].
  destruct (py_getitem (JObj d) "cards") as [cards|e]; [|discriminate].
  cbn [rbind].
  destruct (py_iter cards) as [items|e]; [|discriminate]. cbn [rbind].
  destruct (unwrap_cards env items) as [items'|e]; [|discriminate]. cbn [rbind].
  destruct cards; try (intros [= <-]; now left).
  cbn [py_setitem]. intros [= <-]. right. now exists items'.
Qed.

(** X13.  [get_dynamics] rewrites the ["cards"] list and nothing else.  In
    every payload it returns, the top-level keys are those of the
    Requester's answer in the same order, and every key other than
    ["cards"] holds the value it was received with; so the ["next_offset"]
    a caller reads from the result is the one the service sent, and the
    [offset] argument goes out as [offset_dynamic_id] unchanged. *)
Theorem X13_dynamics_keeps_other_fields (u : User) (offset : Z)
    (need_top : bool) (st : State) (d : Dict) (r : JSON) :
  requester env (trace st) (dynamics_request env u offset need_top) = Ok (JObj d) ->
  fst (get_dynamics env u offset need_top st) = Ok r ->
  (exists d',
      r = JObj d'
      /\ map fst d' = map fst d
      /\ (forall k, k <> "cards" -> dict_get k d' = dict_get k d)
      /\ dict_get "next_offset" d' = dict_get "next_offset" d)
  /\ map (param_of "offset_dynamic_id")
         (issued (get_dynamics env u offset need_top) st)
     = [Some (JInt offset)].
Proof.
  intros Hreq Hr. split.
  - rewrite (get_dynamics_result env u offset need_top st _ Hreq) in Hr.
    apply unwrap_dynamics_shape in Hr as [->|(items' & Hc & ->)].
    + exists d. now repeat split.
    + eexists. split; [reflexivity|]. split; [now apply dict_set_keys|].
      split.
      * intros k Hk. now apply dict_get_set_other.
      * now apply dict_get_set_other.
  - now rewrite issued_get_dynamics.
Qed.

(** X14.  Edges of the unwrap.  An answer that is None (as well as an int
    or a bool) makes [get_dynamics] raise TypeError at the membership test;
    a ["cards"] entry that is None raises TypeError at the loop; an empty
    ["cards"] list is returned with the payload exactly as received. *)
Theorem X14_dynamics_edge_payloads (u : User) (offset : Z) (need_top : bool)
    (st : State) :
  let result := fst (get_dynamics env u offset need_top st) in
  let answer := requester env (trace st) (dynamics_request env u offset need_top) in
  (answer = Ok JNull -> result = Err TypeError)
  /\ (forall z, answer = Ok (JInt z) -> result = Err TypeError)
  /\ (forall b, answer = Ok (JBool b) -> result = Err TypeError)
  /\ (forall d,
        answer = Ok (JObj d) -> dict_get "cards" d = Some JNull ->
        result = Err TypeError)
  /\ (forall d,
        answer = Ok (JObj d) -> dict_get "cards" d = Some (JArr []) ->
        result = Ok (JObj d)).
Proof.
  intros result answer. subst result answer.
  repeat split; intros;
    match goal with
    | H : requester _ _ _ = Ok _ |- _ =>
        rewrite (get_dynamics_result env u offset need_top st _ H)
    end; try reflexivity.
  - unfold unwrap_dynamics, py_contains, dict_has, py_getitem.
    match goal with H : dict_get _ _ = _ |- _ => now rewrite H end.
  - rewrite (unwrap_dynamics_list env d [] ltac:(assumption)).
    cbn [unwrap_cards rbind]. now rewrite dict_set_same.
Qed.

Lemma unwrap_card_inv f c' :
  unwrap_card env (JObj f) = Ok c' ->
  exists s v v2,
    dict_get "card" f = Some (JStr s)
    /\ loads env s = Some v
    /\ c' = JObj (dict_set "extend_json" v2 (dict_set "card" v f)).
Proof.
  unfold unwrap_card. cbn [py_getitem].
  destruct (dict_get "card" f) as [x|] eqn:H1; [|discriminate]. cbn [rbind].
  destruct x as [| | |s| |]; try discriminate. cbn [json_loads].
  destruct (loads env s) as [v|] eqn:L1; [|discriminate].
  cbn [rbind py_setitem py_getitem].
  destruct (dict_get "extend_json" (dict_set "card" v f)) as [x2|]; [|discriminate].
  cbn [rbind].
  destruct (json_loads env x2) as [v2|]; [|discriminate]. cbn [rbind].
  intros [= <-]. now exists s, v, v2.
Qed.

(** X15.  The unwrap cannot be applied twice.  When a payload with a
    non-empty ["cards"] list has been unwrapped and the first card decoded
    to anything but a str (cards decode to objects), unwrapping the result
    again raises TypeError: [json.loads] is handed the decoded value. *)
Theorem X15_unwrap_is_not_repeatable (d f : Dict) (rest : list JSON) (r : JSON) :
  dict_get "cards" d = Some (JArr (JObj f :: rest)) ->
  unwrap_dynamics env (JObj d) = Ok r ->
  (forall s v,
      dict_get "card" f = Some (JStr s) -> loads env s = Some v ->
      forall s', v <> JStr s') ->
  unwrap_dynamics env r = Err TypeError.
Proof.
  intros Hc Hr Hv.
  rewrite (unwrap_dynamics_list env d _ Hc) in Hr.
  cbn [unwrap_cards] in Hr.
  destruct (unwrap_card env (JObj f)) as [c'|] eqn:E1; [|discriminate].
  cbn [rbind] in Hr.
  destruct (unwrap_cards env rest) as [rest'|]; [|discriminate].
  cbn [rbind] in Hr. injection Hr as <-.
  apply unwrap_card_inv in E1 as (s & v & v2 & H1 & L1 & ->).
  rewrite (unwrap_dynamics_list env _ _ (dict_get_set_same "cards" _ d)).
  cbn [unwrap_cards]. unfold unwrap_card at 1. cbn [py_getitem].
  rewrite dict_get_set_other by discriminate. rewrite dict_get_set_same.
  cbn [rbind]. specialize (Hv s v H1 L1).
  destruct v; try reflexivity. now destruct (Hv s0).
Qed.

(** *** get_channels *)

Lemma silent_ret {A} (a : A) : silent (ret a).
Proof. intros st. reflexivity. Qed.

Lemma silent_lift {A} (r : Result A) : silent (lift r).
Proof. intros st. reflexivity. Qed.

Lemma silent_bind {A B} (m : M A) (f : A -> M B) :
  silent m -> (forall a, silent (f a)) -> silent (bind m f).
Proof.
  intros Hm Hf st. unfold bind. specialize (Hm st).
  destruct (m st) as [[a|e] st1]; cbn [snd] in *; [|exact Hm].
  now rewrite Hf.
Qed.

Lemma silent_mapM {A B} (f : A -> M B) l :
  (forall a, silent (f a)) -> silent (mapM f l).
Proof.
  intros Hf. induction l as [|x l IH]; cbn [mapM]; [apply silent_ret|].
  apply silent_bind; [apply Hf|]. intros y.
  apply silent_bind; [exact IH|]. intros ys. apply silent_ret.
Qed.

Lemma silent_channel_of_item u type_ key item :
  silent (channel_of_item u type_ key item).
Proof.
  unfold channel_of_item.
  apply silent_bind; [apply silent_lift|]. intros t.
  apply silent_bind; [apply silent_lift|]. intros m.
  apply silent_bind; [|intros o; apply silent_ret].
  unfold User_init. apply silent_bind; [|intros a; apply silent_ret].
  intros st. reflexivity.
Qed.

Lemma get_channels_trace u st :
  trace (snd (get_channels env u st)) = trace (snd (get_channel_list env u st)).
Proof.
  unfold get_channels. unfold bind at 1.
  destruct (get_channel_list env u st) as [[cd|e] st1]; [|reflexivity].
  cbn [snd].
  apply (silent_bind (lift _)); [apply silent_lift|]. intros seasons.
  apply silent_bind; [apply silent_mapM; intros; apply silent_channel_of_item|].
  intros cs. apply silent_bind; [apply silent_lift|]. intros series.
  apply silent_bind; [apply silent_mapM; intros; apply silent_channel_of_item|].
  intros cs'. apply silent_ret.
Qed.

(** X16.  [get_channels] costs what [get_channel_list] costs and no more.
    Run from the same state, the two add the same events to the trace, in
    every case, failures included: building the collection objects calls
    the Requester for none of the entries. *)
Theorem X16_get_channels_adds_no_request (u : User) (st : State) :
  issued (get_channels env u) st = issued (get_channel_list env u) st.
Proof. unfold issued. now rewrite get_channels_trace. Qed.

Lemma channel_of_item_run u type_ key item m t st :
  entry_meta key item = Some (m, t) ->
  channel_of_item u type_ key item st
  = (Ok (mkChannelSeriesAny (uid u) (ChannelSeriesType_value type_) t
           (mkUser (uid u) (credential u) (length (heap st)))
           (Some (credential u)) (JObj m)),
     mkState (trace st) (heap st ++ [JNull])).
Proof.
  intros H. destruct item as [| | | | |d]; try discriminate H.
  cbn [entry_meta] in H.
  destruct (dict_get "meta" d) as [[| | | | |m']|] eqn:Hm; try discriminate H.
  destruct (dict_get key m') as [t'|] eqn:Ht; [|discriminate H].
  injection H as -> ->.
  unfold channel_of_item, bind, lift, User_init, new_cell, ret.
  cbn [py_getitem rbind]. rewrite Hm. cbn [rbind py_getitem]. now rewrite Ht.
Qed.

Lemma channel_of_item_without_meta u type_ key d st :
  dict_get "meta" d = None ->
  channel_of_item u type_ key (JObj d) st = (Err (KeyError "meta"), st).
Proof.
  intros H. unfold channel_of_item, bind, lift. cbn [py_getitem].
  now rewrite H.
Qed.

Lemma channels_of_items_run u type_ l st :
  Forall (fun c => well_formed_entry (id_key (ChannelSeriesType_value type_)) c
                   = true) l ->
  exists cs,
    mapM (channel_of_item u type_ (id_key (ChannelSeriesType_value type_))) l st
    = (Ok cs, mkState (trace st) (heap st ++ repeat JNull (length l)))
    /\ Forall2 (built_from u type_) l cs
    /\ map (fun c => self_info (any_owner c)) cs
       = seq (length (heap st)) (length l).
Proof.
  intros H. revert st. induction H as [|item l Hitem _ IH]; intros st.
  - exists []. cbn. rewrite app_nil_r. destruct st. repeat split. constructor.
  - unfold well_formed_entry in Hitem.
    destruct (entry_meta _ item) as [[m t]|] eqn:He; [|discriminate].
    destruct (IH (mkState (trace st) (heap st ++ [JNull]))) as (cs & E & F & A).
    eexists. cbn [mapM]. unfold bind at 1.
    rewrite (channel_of_item_run u type_ _ item m t st He).
    unfold bind at 1. rewrite E. cbn [ret trace heap length repeat].
    rewrite <- app_assoc. split; [reflexivity|]. split.
    + constructor; [|exact F]. exists m, t. now repeat split.
    + cbn [map any_owner self_info seq]. f_equal. rewrite A. cbn [heap].
      rewrite length_app. cbn [length]. now rewrite Nat.add_1_r.
Qed.

Lemma channels_of_items_fail u type_ pre d post st :
  Forall (fun c => well_formed_entry (id_key (ChannelSeriesType_value type_)) c
                   = true) pre ->
  dict_get "meta" d = None ->
  fst (mapM (channel_of_item u type_ (id_key (ChannelSeriesType_value type_)))
         (pre ++ JObj d :: post) st)
  = Err (KeyError "meta").
Proof.
  intros H Hd. revert st. induction H as [|item l Hitem _ IH]; intros st.
  - cbn [app mapM]. unfold bind. now rewrite channel_of_item_without_meta.
  - unfold well_formed_entry in Hitem.
    destruct (entry_meta _ item) as [[m t]|] eqn:He; [|discriminate].
    cbn [app mapM]. unfold bind at 1.
    rewrite (channel_of_item_run u type_ _ item m t st He).
    unfold bind at 1. specialize (IH (mkState (trace st) (heap st ++ [JNull]))).
    destruct (mapM _ (l ++ JObj d :: post) _) as [[cs|e] st1];
      cbn [fst] in IH; [discriminate IH | now rewrite IH].
Qed.

(** For an entry whose id is an int, one round of [get_channels] builds
    what the constructor builds when it is handed the entry's id and
    metadata, and leaves the same state. *)
Lemma channel_of_item_is_construction u type_ item m z st :
  entry_meta (id_key (ChannelSeriesType_value type_)) item = Some (m, JInt z) ->
  exists c cs st',
    channel_of_item u type_ (id_key (ChannelSeriesType_value type_)) item st
    = (Ok c, st')
    /\ as_ChannelSeries c = Some cs
    /\ ChannelSeries_init env (uid u) type_ z (Some (credential u)) (JObj m) st
       = (Ok cs, st').
Proof.
  intros H. do 3 eexists.
  rewrite (channel_of_item_run u type_ _ item m (JInt z) st H).
  split; [reflexivity|]. split; [reflexivity|].
  now rewrite ChannelSeries_init_supplied.
Qed.

(** X17.  On a listing whose two sub-lists are lists of well-formed
    entries, [get_channels] returns one object per entry, the seasons first
    and the series after them, each in the order of the listing.  Every
    object carries its entry's metadata and id, the discriminator of its
    sub-list, and the user id and credential of the discovering user; its
    owner is a new [User] instance of its own, with nothing cached. *)
Theorem X17_get_channels_result (u : User) (st st' : State)
    (channel_data il : JSON) (seasons series : list JSON) :
  get_channel_list env u st = (Ok channel_data, st') ->
  py_getitem channel_data "items_lists" = Ok il ->
  py_getitem il "seasons_list" = Ok (JArr seasons) ->
  py_getitem il "series_list" = Ok (JArr series) ->
  Forall (fun c => well_formed_entry "season_id" c = true) seasons ->
  Forall (fun c => well_formed_entry "series_id" c = true) series ->
  exists new old,
    get_channels env u st
    = (Ok (new ++ old),
       mkState (trace st')
               (heap st' ++ repeat JNull (length seasons + length series)))
    /\ Forall2 (built_from u SEASON) seasons new
    /\ Forall2 (built_from u SERIES) series old
    /\ map (fun c => self_info (any_owner c)) (new ++ old)
       = seq (length (heap st')) (length seasons + length series).
Proof.
  intros Hl Hil Hse Hsr Wse Wsr.
  destruct (channels_of_items_run u SEASON seasons st' Wse) as (new & E1 & F1 & A1).
  destruct (channels_of_items_run u SERIES series
              (mkState (trace st') (heap st' ++ repeat JNull (length seasons)))
              Wsr) as (old & E2 & F2 & A2).
  exists new, old. split; [|split; [exact F1 | split; [exact F2|]]].
  - unfold get_channels. unfold bind at 1. rewrite Hl.
    unfold bind at 1. unfold lift at 1. rewrite Hil. cbn [rbind].
    rewrite Hse. cbn [rbind py_iter].
    unfold bind at 1. change "season_id" with (id_key (ChannelSeriesType_value SEASON)).
    rewrite E1.
    unfold bind at 1. unfold lift at 1.
    rewrite Hsr. cbn [rbind py_iter].
    unfold bind at 1. change "series_id" with (id_key (ChannelSeriesType_value SERIES)).
    rewrite E2. cbn [ret trace heap].
    now rewrite <- app_assoc, repeat_app.
  - rewrite map_app, A1, A2. cbn [heap].
    rewrite length_app, repeat_length. now rewrite seq_app.
Qed.

Lemma bind_ok_inv {A B} (m : M A) (f : A -> M B) st b st' :
  bind m f st = (Ok b, st') ->
  exists a st1, m st = (Ok a, st1) /\ f a st1 = (Ok b, st').
Proof.
  unfold bind. destruct (m st) as [[a|e] st1]; [|discriminate].
  intros H. now exists a, st1.
Qed.

Lemma mapM_ok_Forall {A B} (f : A -> M B) (P : B -> Prop) l :
  (forall a st b st', f a st = (Ok b, st') -> P b) ->
  forall st bs st', mapM f l st = (Ok bs, st') -> Forall P bs.
Proof.
  intros Hf. induction l as [|x l IH]; intros st bs st'; cbn [mapM].
  - intros [= <- _]. constructor.
  - intros H. apply bind_ok_inv in H as (y & s1 & Hy & H).
    apply bind_ok_inv in H as (ys & s2 & Hys & H).
    injection H as <- _. constructor; [now apply (Hf x st y s1) | now apply (IH s1 ys s2)].
Qed.

Lemma channel_of_item_ok u type_ item st c st' :
  channel_of_item u type_ (id_key (ChannelSeriesType_value type_)) item st
  = (Ok c, st') ->
  discovered_by u c.
Proof.
  unfold channel_of_item. intros H.
  apply bind_ok_inv in H as (t & s1 & Ht & H).
  apply bind_ok_inv in H as (m & s2 & Hm & H).
  apply bind_ok_inv in H as (o & s3 & Ho & H).
  injection H as <- _.
  unfold lift in Ht, Hm. injection Hm as Hm _. injection Ht as Ht _.
  rewrite Hm in Ht. cbn [rbind] in Ht.
  unfold User_init, bind, new_cell, ret in Ho. injection Ho as <- _.
  unfold discovered_by. cbn.
  repeat split.
  - destruct type_; [now left | now right].
  - destruct m as [| | | | |[|kv f]]; try discriminate Ht. reflexivity.
  - exact Ht.
Qed.

Lemma get_channels_discovered u st cs :
  fst (get_channels env u st) = Ok cs -> Forall (discovered_by u) cs.
Proof.
  intros H. destruct (get_channels env u st) as [r st'] eqn:E.
  cbn [fst] in H. subst r. unfold get_channels in E.
  apply bind_ok_inv in E as (cd & s1 & _ & E).
  apply bind_ok_inv in E as (seasons & s2 & _ & E).
  apply bind_ok_inv in E as (new & s3 & H1 & E).
  apply bind_ok_inv in E as (series & s4 & _ & E).
  apply bind_ok_inv in E as (old & s5 & H2 & E).
  injection E as <- _. apply Forall_app. split.
  - apply (mapM_ok_Forall (channel_of_item u SEASON "season_id")
             (discovered_by u) seasons) with (st := s2) (st' := s3);
      [|exact H1].
    intros a s b s'. apply (channel_of_item_ok u SEASON).
  - apply (mapM_ok_Forall (channel_of_item u SERIES "series_id")
             (discovered_by u) series) with (st := s4) (st' := s5);
      [|exact H2].
    intros a s b s'. apply (channel_of_item_ok u SERIES).
Qed.

(** X18.  Every object [get_channels] returns is well-formed, whatever the
    listing looked like: it carries the discovering user's id and
    credential, as does its owner; its discriminator is 0 or 1; its
    metadata is a non-empty mapping, and that mapping holds the object's id
    under the id key of its kind. *)
Theorem X18_discovered_collections_are_resolved (u : User) (st : State)
    (cs : list ChannelSeriesAny) :
  fst (get_channels env u st) = Ok cs ->
  Forall (discovered_by u) cs.
Proof. apply get_channels_discovered. Qed.

(** X19.  Listing the videos of a collection that [get_channels] returned
    (its id being an int) issues one request, on behalf of the discovering
    user: the request carries that user's credential and id, and asks,
    under the id parameter of the collection's kind, for the id that the
    collection's own metadata holds. *)
Theorem X19_videos_of_a_discovered_collection (u : User) (st st2 : State)
    (cs : list ChannelSeriesAny) (c : ChannelSeriesAny) (s : ChannelSeries)
    (sort : ChannelOrder) (pn ps : Z) :
  fst (get_channels env u st) = Ok cs ->
  In c cs ->
  as_ChannelSeries c = Some s ->
  exists rq,
    issued (ChannelSeries_get_videos env s sort pn ps) st2 = [EvRequest rq]
    /\ req_method rq = GET
    /\ req_credential rq = Some (credential u)
    /\ param_of "mid" (EvRequest rq) = Some (JInt (uid u))
    /\ param_of (id_key (is_new s)) (EvRequest rq) = Some (JInt (id_ s))
    /\ py_getitem (meta s) (id_key (is_new s)) = Ok (JInt (id_ s)).
Proof.
  intros H Hin Hs.
  pose proof (get_channels_discovered u st cs H) as D.
  rewrite Forall_forall in D. specialize (D c Hin).
  destruct D as (_ & Hu & Hc & _ & Hk & _ & Hid).
  unfold as_ChannelSeries in Hs.
  destruct (any_id c) as [| |z| | |] eqn:Hz; try discriminate Hs.
  injection Hs as <-. cbn [is_new id_ meta owner].
  unfold ChannelSeries_get_videos. cbn [is_new id_ owner].
  destruct Hk as [Hk|Hk]; rewrite Hk in *; cbn [truthy Z.eqb negb].
  - eexists. unfold get_channel_videos_series. rewrite issued_request.
    split; [reflexivity|]. cbn. rewrite Hu, Hc. now repeat split.
  - eexists. unfold get_channel_videos_season. rewrite issued_request.
    split; [reflexivity|]. cbn. rewrite Hu, Hc. now repeat split.
Qed.

(** X20.  [get_channels] returns all the collections or none.  A season
    entry without ["meta"] makes the whole call fail with KeyError, however
    many entries before it were fine; and since the series are looked up
    only after the seasons are done, a listing without ["series_list"]
    fails with KeyError naming that key even when every season is fine. *)
Theorem X20_get_channels_all_or_nothing (u : User) (st st' : State)
    (channel_data : JSON) (il : Dict) :
  get_channel_list env u st = (Ok channel_data, st') ->
  py_getitem channel_data "items_lists" = Ok (JObj il) ->
  (forall pre d post,
      dict_get "seasons_list" il = Some (JArr (pre ++ JObj d :: post)) ->
      Forall (fun c => well_formed_entry "season_id" c = true) pre ->
      dict_get "meta" d = None ->
      fst (get_channels env u st) = Err (KeyError "meta"))
  /\ (forall seasons,
        dict_get "seasons_list" il = Some (JArr seasons) ->
        Forall (fun c => well_formed_entry "season_id" c = true) seasons ->
        dict_get "series_list" il = None ->
        fst (get_channels env u st) = Err (KeyError "series_list")).
Proof.
  intros Hl Hil. split.
  - intros pre d post Hse Wpre Hd.
    unfold get_channels. unfold bind at 1. rewrite Hl.
    unfold bind at 1. unfold lift at 1. rewrite Hil. cbn [rbind py_getitem].
    rewrite Hse. cbn [rbind py_iter]. unfold bind at 1.
    pose proof (channels_of_items_fail u SEASON pre d post st' Wpre Hd) as F.
    change (id_key (ChannelSeriesType_value SEASON)) with "season_id" in F.
    destruct (mapM _ (pre ++ JObj d :: post) st') as [[x|e] s1];
      cbn [fst] in F; [discriminate F | now rewrite F].
  - intros seasons Hse Wse Hsr.
    destruct (channels_of_items_run u SEASON seasons st' Wse) as (new & E1 & _).
    change (id_key (ChannelSeriesType_value SEASON)) with "season_id" in E1.
    unfold get_channels. unfold bind at 1. rewrite Hl.
    unfold bind at 1. unfold lift at 1. rewrite Hil. cbn [rbind py_getitem].
    rewrite Hse. cbn [rbind py_iter]. unfold bind at 1. rewrite E1.
    unfold bind at 1. unfold lift at 1.
    now rewrite Hsr.
Qed.

End MoreProperties.

(** ** The further properties on a mocked Requester *)

Lemma X1_checks_passed_one_request_witness :
  let env := mock_env sample_payload in
  let op := OpModifyRelation (mkUser 100 full_credential 0) BLOCK in
  exists r,
    run_op env op st1
    = (requester env (trace st1) r, mkState (trace st1 ++ [EvRequest r]) (heap st1))
    /\ req_method r = POST
    /\ req_credential r = Some full_credential.
Proof.
  intros env op.
  destruct (X1_checks_passed_one_request env op st1 eq_refl eq_refl)
    as (r & E & C & M & _).
  exists r. repeat split; assumption.
Defined.

Lemma X2_history_needs_a_session_witness :
  get_self_history (mock_env sample_payload) 1 100 None st1
  = (Err (MissingCredentialError Sessdata), st1).
Proof.
  apply (proj2 (X2_history_needs_a_session (mock_env sample_payload) 1 100 None st1)).
  left. reflexivity.
Defined.

Lemma X3_coins_checks_then_money_witness :
  let env := mock_env (JObj [("money", JInt 5)]) in
  get_self_coins env (Some dedeuserid_credential) st1
  = (Ok (JInt 5),
     mkState [EvRequest (coins_request env dedeuserid_credential)] [JNull]).
Proof.
  intros env.
  apply (proj1 (proj2 (X3_coins_checks_then_money env dedeuserid_credential st1
                         eq_refl) eq_refl)
           [("money", JInt 5)] (JInt 5)); reflexivity.
Defined.

Lemma X4_channel_list_stops_at_probe_witness :
  let u := mkUser 100 anonymous 0 in
  get_channel_list offline_env u st1
  = (Err NetworkException,
     mkState [EvRequest (channel_list_request offline_env u (JInt 1))] [JNull]).
Proof.
  intros u.
  apply (proj1 (X4_channel_list_stops_at_probe offline_env u st1) NetworkException).
  reflexivity.
Defined.

Lemma X5_second_page_size_never_zero_witness :
  let listing := JObj [("items_lists", JObj [("page", JObj [("total", JBool false)])])] in
  let env := mock_env listing in
  let u := mkUser 100 anonymous 0 in
  exists size,
    issued (get_channel_list env u) st1
    = [EvRequest (channel_list_request env u (JInt 1));
       EvSleep (1 # 2);
       EvRequest (channel_list_request env u size)]
    /\ py_eq_int size 0 = false
    /\ size = JInt 1.
Proof.
  intros listing env u.
  destruct (X5_second_page_size_never_zero env u st1 listing
              (JObj [("page", JObj [("total", JBool false)])])
              (JObj [("total", JBool false)]) (JBool false)
              eq_refl eq_refl eq_refl eq_refl)
    as (size & I & Z0 & One & _).
  exists size. repeat split; [exact I | exact Z0 | exact (One eq_refl)].
Defined.

Lemma X6_last_matching_entry_wins_witness :
  exists cs,
    fst (ChannelSeries_init (mock_env mixed_listing) 100 SEASON 7 None JNull st0)
    = Ok cs
    /\ meta cs = JObj [("season_id", JInt 7); ("name", JStr "again")].
Proof.
  apply (X6_last_matching_entry_wins (mock_env mixed_listing) 100 SEASON 7 None st0
           [season_entry 7 "first"] [] (season_entry 7 "again")
           [("season_id", JInt 7); ("name", JStr "again")] (JInt 7)).
  - exists mixed_listing, (JObj mixed_items_lists), (JObj [("total", JInt 3)]),
      (JInt 3), mixed_listing, (JObj mixed_items_lists).
    repeat split.
  - repeat constructor.
  - constructor.
  - reflexivity.
  - reflexivity.
  - reflexivity.
Defined.

Lemma X7_entry_without_meta_fails_construction_witness :
  let new := ChannelSeries_init (mock_env broken_listing) 100 SEASON 7 None JNull in
  fst (new st0) = Err (KeyError "meta")
  /\ length (requests (issued new st0)) = 2%nat.
Proof.
  apply (X7_entry_without_meta_fails_construction (mock_env broken_listing)
           100 SEASON 7 None st0 [season_entry 7 "first"] [] [("id", JInt 9)]).
  - exists broken_listing, (JObj broken_items_lists), (JObj [("total", JInt 2)]),
      (JInt 2), broken_listing, (JObj broken_items_lists).
    repeat split.
  - repeat constructor.
  - reflexivity.
Defined.

Lemma X8_construct_then_list_videos_witness :
  let env := mock_env sample_payload in
  requests
    (issued (bind (ChannelSeries_init env 100 SEASON 7 None
                     (JObj [("season_id", JInt 7)]))
               (fun cs => ChannelSeries_get_videos env cs ChannelOrder_DEFAULT 1 100))
       st0)
  = [season_request env (mkUser 100 anonymous 0) 7 ChannelOrder_DEFAULT 1 100].
Proof.
  intros env.
  apply (proj1 (X8_construct_then_list_videos env 100 SEASON 7 None
                  (JObj [("season_id", JInt 7)]) ChannelOrder_DEFAULT 1 100 st0
                  ltac:(discriminate))).
Defined.

Lemma X9_first_send_looks_up_then_posts_witness :
  let env := mock_identity_env (JObj [("mid", JInt 42)]) JNull in
  let u := mkUser 100 full_credential 0 in
  exists r,
    issued (send_msg env u "hello") st1
    = [EvRequest (identity_request env full_credential); EvRequest r]
    /\ data_of "msg[sender_uid]" (EvRequest r) = Some (JInt 42)
    /\ data_of "msg[receiver_id]" (EvRequest r) = Some (JInt 100)
    /\ data_of "msg[timestamp]" (EvRequest r) = Some (JInt 1650000001).
Proof.
  intros env u.
  destruct (X9_first_send_looks_up_then_posts env u "hello" st1
              (JObj [("mid", JInt 42)]) (JInt 42)
              eq_refl eq_refl ltac:(simpl; lia) eq_refl eq_refl eq_refl)
    as (r & E & _ & _ & _ & _ & S & R & _ & T).
  exists r. split; [|split; [exact S | split; [exact R | exact T]]].
  apply issued_app. rewrite E. reflexivity.
Defined.

Lemma X10_identity_without_mid_is_cached_witness :
  let env := mock_env (JObj [("name", JStr "someone")]) in
  let u := mkUser 100 full_credential 0 in
  let st' := mkState [EvRequest (identity_request env full_credential)]
               [JObj [("name", JStr "someone")]] in
  send_msg env u "hello" st1 = (Err (KeyError "mid"), st')
  /\ forall text', send_msg env u text' st' = (Err (KeyError "mid"), st').
Proof.
  intros env u st'.
  apply (X10_identity_without_mid_is_cached env u "hello" st1
           (JObj [("name", JStr "someone")]) (KeyError "mid"));
    try reflexivity.
  - simpl. lia.
  - discriminate.
Defined.

Lemma X11_failed_lookups_are_repeated_witness :
  let u := mkUser 100 full_credential 0 in
  let run := run_all (map (send_msg offline_env u) ["a"; "b"; "c"]) in
  Forall (fun r => is_ok r = false) (fst (run st1))
  /\ requests (issued run st1)
     = repeat (identity_request offline_env full_credential) 3
  /\ identity_lookups offline_env (issued run st1) = 3%nat
  /\ nth 0 (heap (snd (run st1))) JNull = JNull.
Proof.
  intros u run.
  apply (X11_failed_lookups_are_repeated offline_env u ["a"; "b"; "c"] st1);
    try reflexivity.
  simpl. lia.
Defined.

Lemma X12_cache_is_per_instance_witness :
  let env := mock_env sample_payload in
  identity_lookups env
    (issued (run_all [send_msg env (mkUser 100 full_credential 0) "a";
                      send_msg env (mkUser 100 full_credential 1) "b"]) st2)
  = 2%nat.
Proof.
  intros env.
  apply (X12_cache_is_per_instance env (mkUser 100 full_credential 0)
           (mkUser 100 full_credential 1) "a" "b" st2);
    try reflexivity.
  - intros tr cr. exists sample_payload. split; [reflexivity | discriminate].
  - discriminate.
  - simpl. lia.
  - simpl. lia.
Defined.

Lemma X13_dynamics_keeps_other_fields_witness :
  let env := mock_env sample_payload in
  let r := JObj (dict_set "cards"
                   (JArr [JObj [("desc", JInt 5); ("card", JObj []);
                                ("extend_json", JArr [JInt 7])]])
                   sample_fields) in
  exists d',
    r = JObj d'
    /\ map fst d' = map fst sample_fields
    /\ (forall k, k <> "cards" -> dict_get k d' = dict_get k sample_fields)
    /\ dict_get "next_offset" d' = dict_get "next_offset" sample_fields.
Proof.
  intros env r.
  apply (proj1 (X13_dynamics_keeps_other_fields env (mkUser 100 anonymous 0) 0
                  false st1 sample_fields r eq_refl eq_refl)).
Defined.

Lemma X14_dynamics_edge_payloads_witness :
  fst (get_dynamics (mock_env JNull) (mkUser 100 anonymous 0) 0 false st1)
  = Err TypeError.
Proof.
  apply (proj1 (X14_dynamics_edge_payloads (mock_env JNull)
                  (mkUser 100 anonymous 0) 0 false st1)).
  reflexivity.
Defined.

Lemma X15_unwrap_is_not_repeatable_witness :
  unwrap_dynamics (mock_env sample_payload)
    (JObj (dict_set "cards"
             (JArr [JObj [("desc", JInt 5); ("card", JObj []);
                          ("extend_json", JArr [JInt 7])]])
             sample_fields))
  = Err TypeError.
Proof.
  apply (X15_unwrap_is_not_repeatable (mock_env sample_payload) sample_fields
           [("desc", JInt 5); ("card", JStr "{}"); ("extend_json", JStr "[7]")] []).
  - reflexivity.
  - reflexivity.
  - intros s v [= <-]. simpl. intros [= <-] s'. discriminate.
Defined.

Lemma X17_get_channels_result_witness :
  let env := mock_env mixed_listing in
  let u := mkUser 100 anonymous 0 in
  exists new old,
    get_channels env u st1
    = (Ok (new ++ old),
       mkState (trace (snd (get_channel_list env u st1)))
               ([JNull] ++ repeat JNull 3))
    /\ length new = 2%nat /\ length old = 1%nat
    /\ map (fun c => self_info (any_owner c)) (new ++ old) = [1; 2; 3]%nat.
Proof.
  intros env u.
  destruct (X17_get_channels_result env u st1 (snd (get_channel_list env u st1))
              mixed_listing (JObj mixed_items_lists)
              [season_entry 7 "first"; season_entry 7 "again"]
              [series_entry 8 "old"]
              eq_refl eq_refl eq_refl eq_refl
              ltac:(repeat constructor) ltac:(repeat constructor))
    as (new & old & E & F1 & F2 & A).
  exists new, old. split; [exact E|]. split; [|split; [|exact A]].
  - now rewrite <- (Forall2_length F1).
  - now rewrite <- (Forall2_length F2).
Defined.

(** The objects discovered in the sample listing, written out. *)
Example get_channels_sample :
  fst (get_channels (mock_env mixed_listing) (mkUser 100 anonymous 0) st1)
  = Ok mixed_channels.
Proof. reflexivity. Qed.

Lemma X18_discovered_collections_are_resolved_witness :
  Forall (discovered_by (mkUser 100 anonymous 0)) mixed_channels.
Proof.
  apply (X18_discovered_collections_are_resolved (mock_env mixed_listing)
           (mkUser 100 anonymous 0) st1 mixed_channels).
  reflexivity.
Defined.

Lemma X19_videos_of_a_discovered_collection_witness :
  let env := mock_env mixed_listing in
  let s := mkChannelSeries 100 1 7 (mkUser 100 anonymous 1) (Some anonymous)
             (JObj [("season_id", JInt 7); ("name", JStr "first")]) in
  exists rq,
    issued (ChannelSeries_get_videos env s ChannelOrder_DEFAULT 1 30) st1
    = [EvRequest rq]
    /\ req_credential rq = Some anonymous
    /\ param_of "mid" (EvRequest rq) = Some (JInt 100)
    /\ param_of "season_id" (EvRequest rq) = Some (JInt 7).
Proof.
  intros env s.
  destruct (X19_videos_of_a_discovered_collection env (mkUser 100 anonymous 0)
              st1 st1 mixed_channels
              (mkChannelSeriesAny 100 1 (JInt 7) (mkUser 100 anonymous 1)
                 (Some anonymous)
                 (JObj [("season_id", JInt 7); ("name", JStr "first")]))
              s ChannelOrder_DEFAULT 1 30
              eq_refl ltac:(left; reflexivity) eq_refl)
    as (rq & E & _ & C & M & K & _).
  exists rq. repeat split; assumption.
Defined.

Lemma X20_get_channels_all_or_nothing_witness :
  fst (get_channels (mock_env broken_listing) (mkUser 100 anonymous 0) st1)
  = Err (KeyError "meta").
Proof.
  apply (proj1 (X20_get_channels_all_or_nothing (mock_env broken_listing)
                  (mkUser 100 anonymous 0) st1
                  (snd (get_channel_list (mock_env broken_listing)
                          (mkUser 100 anonymous 0) st1))
                  broken_listing broken_items_lists eq_refl eq_refl)
           [season_entry 7 "first"] [("id", JInt 9)] []).
  - reflexivity.
  - repeat constructor.
  - reflexivity.
Defined.
